(** * SAXS analysis notebook (M3-2_Analysis): phase classification,
      lattice parameters, calibration and cubic space-group fit

    A shallow embedding of the code cells of
    [notebooks/M3-2_Analysis.ipynb].  The notebook computes with Python
    floats (IEEE binary64).  The code is embedded once, over an abstract
    number type [F] with the operations the notebook uses, and read at two
    instances:

    - [R], exact real arithmetic, in which the general properties are
      proved (rounding is not part of that reading);
    - [float], Rocq's primitive binary64 numbers, at which the very same
      definitions run and reproduce the numbers the notebook printed.

    Python exceptions are results [Raise e] of a small error monad; the
    Python values a cell stores in a list of mixed type are a small
    inductive type [pyval]. *)

From Stdlib Require Import Reals Lra Lia List ZArith String Bool.
From Stdlib Require Floats.PrimFloat Floats.SpecFloat Floats.FloatOps.
Import ListNotations.

(** ** Python results: a value or a raised exception *)

Inductive exn : Type :=
| IndexError       (* list index out of range *)
| TypeError        (* numpy.polyfit: empty x, or x and y of different length *)
| ValueError       (* sklearn: inconsistent or empty samples *)
| LinAlgError      (* numpy.linalg.lstsq: SVD did not converge *)
| ZeroDivisionError. (* division of a Python float by zero *)

Inductive res (A : Type) : Type :=
| Ok (a : A)
| Raise (e : exn).

Arguments Ok {A} a.
Arguments Raise {A} e.

Definition bind {A B : Type} (c : res A) (k : A -> res B) : res B :=
  match c with
  | Ok a => k a
  | Raise e => Raise e
  end.

Declare Scope py_scope.
Delimit Scope py_scope with py.
Notation "x <- c ;; k" := (bind c (fun x => k))
  (at level 61, c at next level, right associativity) : py_scope.
Open Scope py_scope.
Open Scope string_scope.

(** [l[i]] for an index [i >= 0]: Python raises [IndexError] out of range. *)
Definition index {A : Type} (l : list A) (i : nat) : res A :=
  match nth_error l i with
  | Some a => Ok a
  | None => Raise IndexError
  end.

(** ** The numbers of the notebook *)

Class PyNum (F : Type) : Type := {
  fadd : F -> F -> F;
  fsub : F -> F -> F;
  fmul : F -> F -> F;
  fdiv : F -> F -> F;
  fsqrt : F -> F;          (* np.sqrt *)
  fabs : F -> F;           (* abs *)
  fltb : F -> F -> bool;   (* x < y *)
  feqb : F -> F -> bool;   (* x == y *)
  of_int : Z -> F;         (* a Python int used where a float is expected *)
  np_pi : F                (* np.pi *)
}.

Declare Scope num_scope.
Delimit Scope num_scope with num.
Infix "+!" := fadd (at level 50, left associativity) : num_scope.
Infix "-!" := fsub (at level 50, left associativity) : num_scope.
Infix "*!" := fmul (at level 40, left associativity) : num_scope.
Infix "/!" := fdiv (at level 40, left associativity) : num_scope.
Infix "<?!" := fltb (at level 70, no associativity) : num_scope.
Infix "=?!" := feqb (at level 70, no associativity) : num_scope.
Open Scope num_scope.

(** The values that end up in [phase_information] and in the result of
    [determine_phase]: a string, a float, [None], or the [nan] that
    [np.mean] and [r2_score] return when they have too few samples. *)
Inductive pyval (F : Type) : Type :=
| PyNone
| PyStr (s : string)
| PyFloat (x : F)
| PyNaN.

Arguments PyNone {F}.
Arguments PyStr {F} s.
Arguments PyFloat {F} x.
Arguments PyNaN {F}.

(** [v == s] for a string literal [s]. *)
Definition py_eq_str {F : Type} (v : pyval F) (s : string) : bool :=
  match v with
  | PyStr p => String.eqb p s
  | _ => false
  end.

(** [for i, j in enumerate(l): body]: [body] answers [Some v] when the
    iteration executes [return v] and [None] when it falls through to the
    next one.  A loop that runs to its end leaves the function without a
    [return], that is with [None]. *)
Fixpoint for_enumerate {A V : Type} (body : nat -> A -> res (option V))
    (i : nat) (l : list A) : res (option V) :=
  match l with
  | [] => Ok None
  | j :: l' =>
      r <- body i j ;;
      match r with
      | Some v => Ok (Some v)
      | None => for_enumerate body (S i) l'
      end
  end.

(** [[f(a) for a in l]] when [f] can raise: the elements are computed in
    order and the first exception ends the comprehension. *)
Fixpoint list_comprehension {A B : Type} (f : A -> res B) (l : list A)
  : res (list B) :=
  match l with
  | [] => Ok []
  | a :: l' =>
      b <- f a ;;
      bs <- list_comprehension f l' ;;
      Ok (b :: bs)
  end.

Section Notebook.

Context {F : Type} `{PyNum F}.

(** A decimal literal [n / d] with [d] a power of ten.  At binary64 the
    correctly rounded quotient of two exactly represented integers is the
    float nearest to the decimal, which is what Python's parser yields. *)
Definition decimal (n d : Z) : F := of_int n /! of_int d.

(** *** Geometry functions *)

Definition calculate_scattering_vector (d : F) : F :=
  (of_int 2 *! np_pi) /! (d /! of_int 10).

Definition calculate_linear_regression (m x b : F) : F :=
  m *! x +! b.

Definition calculate_lattice_plane (q : F) : F :=
  (of_int 2 *! np_pi) /! q.

Definition calculate_lattice_ratio (d d_0 : F) : F :=
  d /! d_0.

Definition calculate_a_H1 (d : F) (h k : Z) : F :=
  d *! fsqrt ((of_int 4 /! of_int 3) *! of_int (h ^ 2 + k ^ 2 + h * k)).

(** [np.sqrt] of a Python int.  numpy takes the int as an int64 or
    uint64 and then as a float; an int outside [-2^63, 2^64) stays a
    Python object, which has no [sqrt], and the call raises
    [TypeError].  The notebook passes sums of squares only, so the
    argument is never negative. *)
Definition np_sqrt_int (n : Z) : res F :=
  if ((n <? - 2 ^ 63) || (2 ^ 64 <=? n))%Z then Raise TypeError
  else Ok (fsqrt (of_int n)).

Definition calculate_a_V1 (d : F) (h k l : Z) : res F :=
  s <- np_sqrt_int (h ^ 2 + k ^ 2 + l ^ 2) ;;
  Ok (d *! s).

Definition d_reciprocal (peak_center : F) : F :=
  peak_center /! (of_int 2 *! np_pi).

Definition sqrt_miller (h k l : Z) : res F :=
  np_sqrt_int (h ^ 2 + k ^ 2 + l ^ 2).

(** [x / y] on Python floats: a zero divisor raises
    [ZeroDivisionError]. *)
Definition py_truediv (x y : F) : res F :=
  if y =?! of_int 0 then Raise ZeroDivisionError else Ok (x /! y).

(** [calculate_scattering_vector(d)] called on a Python float, as the
    cell of [q_cholpal_literature] calls it on the literal spacings: the
    value is that of [calculate_scattering_vector], and each of the two
    divisions can raise. *)
Definition calculate_scattering_vector_call (d : F) : res F :=
  t <- py_truediv d (of_int 10) ;;
  py_truediv (of_int 2 *! np_pi) t.

(** [[calculate_scattering_vector(d) for d in d_from_literature]]. *)
Definition q_cholpal_literature_of (d_from_literature : list F)
  : res (list F) :=
  list_comprehension calculate_scattering_vector_call d_from_literature.

(** *** Phase classifier *)

Definition H1 : list F :=
  [ of_int 1 /! fsqrt (of_int 3);
    of_int 1 /! fsqrt (of_int 4);
    of_int 1 /! fsqrt (of_int 7);
    of_int 1 /! fsqrt (of_int 9) ].

Definition V1 : list F :=
  [ of_int 1 /! fsqrt (of_int 2);
    of_int 1 /! fsqrt (of_int 3);
    of_int 1 /! fsqrt (of_int 4);
    of_int 1 /! fsqrt (of_int 5) ].

Definition La : list F :=
  [ of_int 1 /! of_int 2;
    of_int 1 /! of_int 3;
    of_int 1 /! of_int 4;
    of_int 1 /! of_int 5 ].

(** One iteration of the loop of [determine_phase]; each of its four
    branches is a [return]. *)
Definition determine_phase_body (d_ratios : list F) (i : nat) (j : F)
  : res (option (pyval F)) :=
  x <- index d_ratios i ;;
  t <- index H1 i ;;
  if fabs (x -! t) <?! decimal 3 100 then Ok (Some (PyStr "hexagonal"))
  else
    x <- index d_ratios i ;;
    t <- index V1 i ;;
    if fabs (x -! t) <?! decimal 3 100 then Ok (Some (PyStr "cubic"))
    else
      x <- index d_ratios i ;;
      t <- index La i ;;
      if fabs (x -! t) <?! decimal 3 100 then Ok (Some (PyStr "lamellar"))
      else Ok (Some (PyStr "indeterminate")).

Definition determine_phase (d_ratios : list F) : res (pyval F) :=
  r <- for_enumerate (determine_phase_body d_ratios) 0 d_ratios ;;
  match r with
  | Some v => Ok v
  | None => Ok PyNone
  end.

(** *** Measured spacings and their ratios *)

Definition d_measured_of (q_corrected : list F) : list F :=
  map calculate_lattice_plane q_corrected.

(** [[calculate_lattice_ratio(d, d_measured[0]) for d in d_measured[1:]]];
    [d_measured[0]] is only evaluated when the slice is not empty. *)
Definition d_ratio_of (d_measured : list F) : res (list F) :=
  match tl d_measured with
  | [] => Ok []
  | ds =>
      d_0 <- index d_measured 0 ;;
      Ok (map (fun d => calculate_lattice_ratio d d_0) ds)
  end.

(** *** Lattice parameter resolver *)

(** [np.mean] of a short list: the sum from left to right over the
    count, [nan] (with a warning, not an exception) for no element. *)
Definition np_sum (l : list F) : F := fold_left fadd l (of_int 0).

Definition np_mean (l : list F) : pyval F :=
  match l with
  | [] => PyNaN
  | _ => PyFloat (np_sum l /! of_int (Z.of_nat (List.length l)))
  end.

(** The loop of the hexagonal branch, with the list [a_hex] it appends
    to; [rest] is what [enumerate] has still to yield. *)
Fixpoint hexagonal_loop (h k : list Z) (d_measured : list F)
    (i : nat) (rest : list F) (a_hex : list F) : res (list F) :=
  match rest with
  | [] => Ok a_hex
  | _ :: rest' =>
      d <- index d_measured i ;;
      h_i <- index h i ;;
      k_i <- index k i ;;
      hexagonal_loop h k d_measured (S i) rest'
        (a_hex ++ [calculate_a_H1 d h_i k_i])
  end.

Fixpoint cubic_loop (h k l : list Z) (d_measured : list F)
    (i : nat) (rest : list F) (a_cub : list F) : res (list F) :=
  match rest with
  | [] => Ok a_cub
  | _ :: rest' =>
      d <- index d_measured i ;;
      h_i <- index h i ;;
      k_i <- index k i ;;
      l_i <- index l i ;;
      a_i <- calculate_a_V1 d h_i k_i l_i ;;
      cubic_loop h k l d_measured (S i) rest' (a_cub ++ [a_i])
  end.

(** The cell that follows [phase = determine_phase(d_ratio)]: the list
    [[phase, lattice parameter]] it leaves in [phase_information]. *)
Definition phase_information (phase : pyval F) (d_measured : list F)
  : res (pyval F * pyval F) :=
  if py_eq_str phase "hexagonal" then
    let h := [1; 1; 2; 2; 3]%Z in
    let k := [0; 1; 0; 1; 0]%Z in
    a_hex <- hexagonal_loop h k d_measured 0 d_measured [] ;;
    Ok (phase, np_mean a_hex)
  else if py_eq_str phase "cubic" then
    let h := [1; 1; 2; 2; 2]%Z in
    let k := [0; 1; 0; 1; 2]%Z in
    let l := [0; 1; 0; 1; 2]%Z in
    a_cub <- cubic_loop h k l d_measured 0 d_measured [] ;;
    Ok (phase, np_mean a_cub)
  else if py_eq_str phase "lamellar" then
    d_0 <- index d_measured 0 ;;
    Ok (phase, PyFloat d_0)
  else
    Ok (PyStr "indeterminate", PyStr "-").

(** The cells from the corrected scattering vectors to
    [phase_information], in the order the notebook runs them. *)
Definition analyse (q_corrected : list F) : res (pyval F * pyval F) :=
  let d_measured := d_measured_of q_corrected in
  d_ratio <- d_ratio_of d_measured ;;
  phase <- determine_phase d_ratio ;;
  phase_information phase d_measured.

(** The same cells from the measured spacings on: the phase alone, and
    the phase with its lattice parameter. *)
Definition classify (d_measured : list F) : res (pyval F) :=
  d_ratio <- d_ratio_of d_measured ;;
  determine_phase d_ratio.

Definition classify_and_resolve (d_measured : list F)
  : res (pyval F * pyval F) :=
  d_ratio <- d_ratio_of d_measured ;;
  phase <- determine_phase d_ratio ;;
  phase_information phase d_measured.

(** The cubic-phase cell: [x] is built by a loop over [h] that indexes
    [k] and [l]. *)
Fixpoint sqrt_miller_loop (h k l : list Z) (index0 : nat) (rest : list Z)
  : res (list F) :=
  match rest with
  | [] => Ok []
  | _ :: rest' =>
      h_i <- index h index0 ;;
      k_i <- index k index0 ;;
      l_i <- index l index0 ;;
      x_i <- sqrt_miller h_i k_i l_i ;;
      xs <- sqrt_miller_loop h k l (S index0) rest' ;;
      Ok (x_i :: xs)
  end.

Definition cubic_x (h k l : list Z) : res (list F) :=
  sqrt_miller_loop h k l 0 h.

Definition cubic_y (scattering_vector : list F) : list F :=
  map d_reciprocal scattering_vector.

(** [np.poly1d(coef)(x)] for the two coefficients of a line and a list
    [x].  [poly1d] drops leading coefficients that are zero (and keeps a
    single 0. when none is left); the call is Horner's rule at each
    element, from 0. *)
Definition polyval (coef : list F) (x : F) : F :=
  fold_left (fun acc c => acc *! x +! c) coef (of_int 0).

Definition poly1d_coeffs (coef : F * F) : list F :=
  if fst coef =?! of_int 0 then
    if snd coef =?! of_int 0 then [of_int 0] else [snd coef]
  else [fst coef; snd coef].

Definition np_poly1d (coef : F * F) (x : list F) : list F :=
  map (polyval (poly1d_coeffs coef)) x.

(** A float that is neither [nan] nor infinite: [x - x] is zero. *)
Definition is_finite (x : F) : bool := (x -! x) =?! of_int 0.

(** [r2_score(y_true, y_pred)] of scikit-learn on two lists: lengths
    that differ, no sample, or an element that is not finite raise
    [ValueError]; a single sample gives [nan] with a warning; otherwise,
    with the residual sum of squares
    [numerator] and the total sum of squares [denominator], the score is
    [1 - numerator / denominator] when both are non-zero, 0.0 when only
    the denominator is zero, and 1.0 when the numerator is zero. *)
Definition r2_score (y_true y_pred : list F) : res (pyval F) :=
  if negb (Nat.eqb (List.length y_true) (List.length y_pred))
  then Raise ValueError
  else if negb (forallb is_finite y_true && forallb is_finite y_pred)
  then Raise ValueError
  else
    match y_true with
    | [] => Raise ValueError
    | [_] => Ok PyNaN
    | _ =>
        let mean :=
          np_sum y_true /! of_int (Z.of_nat (List.length y_true)) in
        let numerator :=
          np_sum (map (fun p => (fst p -! snd p) *! (fst p -! snd p))
                    (combine y_true y_pred)) in
        let denominator :=
          np_sum (map (fun a => (a -! mean) *! (a -! mean)) y_true) in
        if numerator =?! of_int 0 then Ok (PyFloat (of_int 1))
        else if denominator =?! of_int 0 then Ok (PyFloat (of_int 0))
        else Ok (PyFloat (of_int 1 -! numerator /! denominator))
    end.

End Notebook.

(** ** The two readings of the numbers *)

Open Scope R_scope.

Definition Rltb (x y : R) : bool := if Rlt_dec x y then true else false.

Definition Reqb (x y : R) : bool := if Req_dec_T x y then true else false.

#[export] Instance PyNum_R : PyNum R := {
  fadd := Rplus;
  fsub := Rminus;
  fmul := Rmult;
  fdiv := Rdiv;
  fsqrt := sqrt;
  fabs := Rabs;
  fltb := Rltb;
  feqb := Reqb;
  of_int := IZR;
  np_pi := PI
}.

(** The binary64 value of a Python int (round to nearest, ties to even). *)
Definition float_of_int (z : Z) : PrimFloat.float :=
  FloatOps.SF2Prim
    (SpecFloat.binary_normalize FloatOps.prec FloatOps.emax z 0 false).

(** [np.pi] is the double [0x1.921fb54442d18p+1], that is
    [0x1921fb54442d18 * 2^-51]. *)
Definition pi_binary64 : PrimFloat.float :=
  FloatOps.SF2Prim (SpecFloat.S754_finite false 7074237752028440 (-51)).

#[export] Instance PyNum_binary64 : PyNum PrimFloat.float := {
  fadd := PrimFloat.add;
  fsub := PrimFloat.sub;
  fmul := PrimFloat.mul;
  fdiv := PrimFloat.div;
  fsqrt := PrimFloat.sqrt;
  fabs := PrimFloat.abs;
  fltb := PrimFloat.ltb;
  feqb := PrimFloat.eqb;
  of_int := float_of_int;
  np_pi := pi_binary64
}.

(** ** The library routines the cells call, in exact arithmetic

    [numpy.polyfit] is not part of the repository and solves its
    least-squares problem by a singular value decomposition in floating
    point.  It is modelled at [R] from its implementation: the argument
    checks in the order the library makes them, and the value in exact
    arithmetic. *)

Definition Rsum (l : list R) : R := fold_right Rplus 0 l.

Fixpoint dot (x y : list R) : R :=
  match x, y with
  | a :: x', b :: y' => a * b + dot x' y'
  | _, _ => 0
  end.

(** [np.polyfit(x, y, 1)], as the pair (slope, intercept).

    - [x] empty: [TypeError] (expected non-empty vector for x);
    - [x] and [y] of different length: [TypeError];
    - otherwise the least-squares line through the points.  When the
      points do not determine it (all [x] equal, in particular a single
      point) numpy only warns (RankWarning) and returns the solution of
      least norm of the system whose columns it has scaled to unit length,
      which is the line through the mean of [y] with intercept half that
      mean; with all [x] zero the column norm it divides by is zero and
      [lstsq] raises on the resulting matrix. *)
Definition np_polyfit (x y : list R) : res (R * R) :=
  match x with
  | [] => Raise TypeError
  | x_0 :: _ =>
      if negb (Nat.eqb (List.length x) (List.length y)) then Raise TypeError
      else
        let n := INR (List.length x) in
        let det := n * dot x x - Rsum x * Rsum x in
        if Reqb det 0 then
          if Reqb x_0 0 then Raise LinAlgError
          else Ok (Rsum y / n / (2 * x_0), Rsum y / n / 2)
        else
          let slope := (n * dot x y - Rsum x * Rsum y) / det in
          Ok (slope, (Rsum y - slope * Rsum x) / n)
  end.

(** The sum of the squared residuals of the line [m * x + b], which a
    least-squares fit minimises. *)
Definition sq_residuals (x y : list R) (m b : R) : R :=
  Rsum (map (fun p => (snd p - (m * fst p + b)) * (snd p - (m * fst p + b)))
          (combine x y)).

(** ** The cells that fit *)

(** The calibration cells: the literature scattering vectors, then the
    line fitted through the standard's peak centers and these. *)
Definition calibration_fit (standard_peaks d_from_literature : list R)
  : res (R * R) :=
  q_cholpal_literature <- q_cholpal_literature_of d_from_literature ;;
  np_polyfit standard_peaks q_cholpal_literature.

(** ... and the corrected scattering vectors of a sample. *)
Definition q_corrected_of (standard_peaks d_from_literature sample_peaks
  : list R) : res (list R) :=
  line <- calibration_fit standard_peaks d_from_literature ;;
  Ok (map (fun value =>
             calculate_linear_regression (fst line) value (snd line))
        sample_peaks).

(** The cubic-phase cells: slope, intercept and R squared of the fit of
    [d_reciprocal] against [sqrt_miller]. *)
Definition cubic_fit (h k l : list Z) (scattering_vector : list R)
  : res (R * R * pyval R) :=
  x <- cubic_x h k l ;;
  let y := cubic_y scattering_vector in
  coef <- np_polyfit x y ;;
  r2 <- r2_score y (np_poly1d coef x) ;;
  Ok (fst coef, snd coef, r2).

(** The literature spacings of the calibration standard, in Angstrom. *)
Definition d_from_literature {F : Type} `{PyNum F} : list F :=
  [ decimal 5249824535 100000000;
    decimal 2624912267 100000000;
    decimal 1749941512 100000000 ].

(** The table of Miller pairs of the hexagonal phase and of triples of the
    cubic phase, as the description of the resolver lists them. *)
Definition miller_hk : list (Z * Z) :=
  [(1, 0); (1, 1); (2, 0); (2, 1); (3, 0)]%Z.

Definition miller_hkl : list (Z * Z * Z) :=
  [(1, 0, 0); (1, 1, 1); (2, 0, 0); (2, 1, 1); (2, 2, 2)]%Z.

Definition arithmetic_mean (l : list R) : R :=
  Rsum l / INR (List.length l).

(** The spacings of an ideal lattice of parameter [a] at the reflections
    of the two tables: [a / sqrt ((4/3) * (h^2 + k^2 + h*k))] for the
    hexagonal one, [a / sqrt (h^2 + k^2 + l^2)] for the cubic one. *)
Definition ideal_hexagonal_spacings (a : R) : list R :=
  map (fun hk => a / sqrt (4 / 3 * IZR (fst hk ^ 2 + snd hk ^ 2
                                        + fst hk * snd hk)))
    miller_hk.

Definition ideal_cubic_spacings (a : R) : list R :=
  map (fun hkl => a / sqrt (IZR (fst (fst hkl) ^ 2 + snd (fst hkl) ^ 2
                                 + snd hkl ^ 2)))
    miller_hkl.

(** The reflection [j] of three Miller lists, as the cubic cell reads it. *)
Definition miller_sum_at (h k l : list Z) (j : nat) : Z :=
  (nth j h 0 ^ 2 + nth j k 0 ^ 2 + nth j l 0 ^ 2)%Z.

Definition sqrt_miller_at {F : Type} `{PyNum F} (h k l : list Z) (j : nat)
  : F :=
  fsqrt (of_int (miller_sum_at h k l j)).

(** * Properties *)

(** ** Phase classifier *)

(** C2. For the empty list of ratios the loop of [determine_phase] has no
    iteration and no [return] is executed: the call neither raises nor
    answers "indeterminate", its result is [None]. *)
Theorem determine_phase_empty_is_None {F : Type} `{PyNum F} :
  determine_phase ([] : list F) = Ok PyNone
  /\ determine_phase ([] : list F) <> Ok (PyStr "indeterminate")
  /\ (forall e, determine_phase ([] : list F) <> Raise e).
Proof.
  assert (Hrun : determine_phase ([] : list F) = Ok PyNone).
  { unfold determine_phase. cbn [for_enumerate bind]. reflexivity. }
  rewrite Hrun. repeat split; try intros e; discriminate.
Qed.

(** The call on a non-empty list, unfolded: one pass through the loop
    body at index 0. *)
Lemma determine_phase_cons (x : R) (rest : list R) :
  determine_phase (x :: rest)
  = Ok (PyStr
          (if Rltb (Rabs (x - 1 / sqrt 3)) (3 / 100) then "hexagonal"
           else if Rltb (Rabs (x - 1 / sqrt 2)) (3 / 100) then "cubic"
           else if Rltb (Rabs (x - 1 / 2)) (3 / 100) then "lamellar"
           else "indeterminate")).
Proof.
  unfold determine_phase, for_enumerate, determine_phase_body, index, decimal.
  cbn [nth_error H1 V1 La bind fltb fsub fabs fdiv fsqrt of_int PyNum_R].
  repeat match goal with
    | |- context [Rltb ?a ?b] => destruct (Rltb a b)
    end; reflexivity.
Qed.

Lemma Rltb_true (x y : R) : x < y -> Rltb x y = true.
Proof. intros L. unfold Rltb. destruct (Rlt_dec x y); [reflexivity|contradiction]. Qed.

Lemma Rltb_false (x y : R) : ~ x < y -> Rltb x y = false.
Proof. intros L. unfold Rltb. destruct (Rlt_dec x y); [contradiction|reflexivity]. Qed.

(** C1. For a non-empty list of ratios the answer of [determine_phase] is
    settled by the comparisons at index 0, in the order hexagonal, cubic,
    lamellar, each with tolerance 0.03, and the further ratios are never
    looked at. *)
Theorem determine_phase_decided_at_index_0 (x : R) (rest : list R) :
  determine_phase (x :: rest) = determine_phase [x]
  /\ (Rabs (x - 1 / sqrt 3) < 3 / 100 ->
      determine_phase (x :: rest) = Ok (PyStr "hexagonal"))
  /\ (~ Rabs (x - 1 / sqrt 3) < 3 / 100 ->
      Rabs (x - 1 / sqrt 2) < 3 / 100 ->
      determine_phase (x :: rest) = Ok (PyStr "cubic"))
  /\ (~ Rabs (x - 1 / sqrt 3) < 3 / 100 ->
      ~ Rabs (x - 1 / sqrt 2) < 3 / 100 ->
      Rabs (x - 1 / 2) < 3 / 100 ->
      determine_phase (x :: rest) = Ok (PyStr "lamellar"))
  /\ (~ Rabs (x - 1 / sqrt 3) < 3 / 100 ->
      ~ Rabs (x - 1 / sqrt 2) < 3 / 100 ->
      ~ Rabs (x - 1 / 2) < 3 / 100 ->
      determine_phase (x :: rest) = Ok (PyStr "indeterminate")).
Proof.
  split; [rewrite !determine_phase_cons; reflexivity|].
  rewrite determine_phase_cons.
  repeat split; intros;
    rewrite ?Rltb_true, ?Rltb_false by assumption;
    rewrite ?Rltb_true by assumption; reflexivity.
Qed.

(** *** The classifier on the first ratios of the description *)

Lemma sqrt_between (a lo hi : R) :
  0 <= lo -> 0 <= hi -> lo * lo < a -> a < hi * hi -> lo < sqrt a < hi.
Proof.
  intros Hlo Hhi Hlt Hgt.
  assert (Ha : 0 <= a) by nra.
  split.
  - rewrite <- (sqrt_square lo Hlo). apply sqrt_lt_1; nra.
  - rewrite <- (sqrt_square hi Hhi). apply sqrt_lt_1; nra.
Qed.

Lemma inv_sqrt_3_bounds : 57 / 100 < 1 / sqrt 3 < 58 / 100.
Proof.
  destruct (sqrt_between 3 (173 / 100) (174 / 100)) as [Hlo Hhi]; try lra.
  split.
  - apply Rmult_lt_reg_r with (r := sqrt 3); [lra|].
    unfold Rdiv at 2. rewrite Rmult_assoc, Rinv_l by lra. lra.
  - apply Rmult_lt_reg_r with (r := sqrt 3); [lra|].
    unfold Rdiv at 1. rewrite Rmult_assoc, Rinv_l by lra. lra.
Qed.

Lemma inv_sqrt_2_bounds : 70 / 100 < 1 / sqrt 2 < 71 / 100.
Proof.
  destruct (sqrt_between 2 (141 / 100) (142 / 100)) as [Hlo Hhi]; try lra.
  split.
  - apply Rmult_lt_reg_r with (r := sqrt 2); [lra|].
    unfold Rdiv at 2. rewrite Rmult_assoc, Rinv_l by lra. lra.
  - apply Rmult_lt_reg_r with (r := sqrt 2); [lra|].
    unfold Rdiv at 1. rewrite Rmult_assoc, Rinv_l by lra. lra.
Qed.

(** A first ratio of 1/2 is lamellar, one of 1/sqrt 3 hexagonal, one of
    1/sqrt 2 cubic, and 0.9 matches no table. *)
Lemma determine_phase_on_table_values (rest : list R) :
  determine_phase (1 / 2 :: rest) = Ok (PyStr "lamellar")
  /\ determine_phase (1 / sqrt 3 :: rest) = Ok (PyStr "hexagonal")
  /\ determine_phase (1 / sqrt 2 :: rest) = Ok (PyStr "cubic")
  /\ determine_phase (9 / 10 :: rest) = Ok (PyStr "indeterminate").
Proof.
  pose proof inv_sqrt_3_bounds as [H3lo H3hi].
  pose proof inv_sqrt_2_bounds as [H2lo H2hi].
  assert (Hin : forall a c, c - 3 / 100 < a < c + 3 / 100 ->
                  Rltb (Rabs (a - c)) (3 / 100) = true).
  { intros a c Hac. apply Rltb_true, Rabs_def1; lra. }
  assert (Hout : forall a c, a <= c - 3 / 100 \/ c + 3 / 100 <= a ->
                   Rltb (Rabs (a - c)) (3 / 100) = false).
  { intros a c Hac. apply Rltb_false. intros Habs.
    apply Rabs_def2 in Habs. lra. }
  rewrite !determine_phase_cons. repeat split.
  - rewrite !Hout, Hin by lra. reflexivity.
  - rewrite Hin by lra. reflexivity.
  - rewrite Hout, Hin by lra. reflexivity.
  - rewrite !Hout by lra. reflexivity.
Qed.

(** ** Lattice parameter resolver *)

(** C5. In the lamellar branch the lattice parameter is the first measured
    spacing itself: nothing is averaged, and the other spacings play no
    part. *)
Theorem lamellar_is_first_spacing {F : Type} `{PyNum F}
    (d0 : F) (ds : list F) :
  phase_information (PyStr "lamellar") (d0 :: ds)
  = Ok (PyStr "lamellar", PyFloat d0)
  /\ (forall ds' : list F,
        phase_information (PyStr "lamellar") (d0 :: ds')
        = phase_information (PyStr "lamellar") (d0 :: ds)).
Proof.
  assert (Hrun : forall tail : list F,
             phase_information (PyStr "lamellar") (d0 :: tail)
             = Ok (PyStr "lamellar", PyFloat d0)).
  { intros tail. unfold phase_information.
    cbn [py_eq_str String.eqb Ascii.eqb Bool.eqb index nth_error bind].
    reflexivity. }
  split; [apply Hrun|]. intros ds'. rewrite !Hrun. reflexivity.
Qed.

(** Without any measured spacing the lamellar branch has no first
    element to take. *)
Lemma lamellar_without_spacing {F : Type} `{PyNum F} :
  phase_information (PyStr "lamellar") ([] : list F) = Raise IndexError.
Proof. reflexivity. Qed.

(** C9. The phase "indeterminate" does not make the resolver fail: for any
    list of spacings it leaves the pair ("indeterminate", "-") and raises
    nothing. *)
Theorem indeterminate_gives_sentinel {F : Type} `{PyNum F}
    (d_measured : list F) :
  phase_information (PyStr "indeterminate") d_measured
  = Ok (PyStr "indeterminate", PyStr "-")
  /\ (forall e, phase_information (PyStr "indeterminate") d_measured
               <> Raise e).
Proof.
  assert (Hrun : phase_information (PyStr "indeterminate") d_measured
                 = Ok (PyStr "indeterminate", PyStr "-")).
  { unfold phase_information.
    cbn [py_eq_str String.eqb Ascii.eqb Bool.eqb]. reflexivity. }
  split; [exact Hrun|]. intros e. rewrite Hrun. discriminate.
Qed.

(** Any phase value other than the three known labels, [None] included,
    takes the same branch. *)
Lemma unknown_phase_gives_sentinel {F : Type} `{PyNum F}
    (phase : pyval F) (d_measured : list F) :
  py_eq_str phase "hexagonal" = false ->
  py_eq_str phase "cubic" = false ->
  py_eq_str phase "lamellar" = false ->
  phase_information phase d_measured
  = Ok (PyStr "indeterminate", PyStr "-").
Proof.
  intros Hh Hc Hl. unfold phase_information. rewrite Hh, Hc, Hl. reflexivity.
Qed.

(** With one measured spacing there is no ratio, [determine_phase] answers
    [None], and the resolver still files the sample as indeterminate. *)
Lemma single_peak_is_indeterminate {F : Type} `{PyNum F} (q0 : F) :
  analyse [q0] = Ok (PyStr "indeterminate", PyStr "-").
Proof. reflexivity. Qed.

(** C10. The Miller lists of the hexagonal and cubic branches have five
    entries and the loop indexes them once per measured spacing: the
    branch completes exactly when there are at most five spacings, and
    with six or more the lookup raises [IndexError]. *)
Theorem miller_lookup_in_bounds_iff {F : Type} `{PyNum F}
    (d_measured : list F) :
  ((exists v, phase_information (PyStr "hexagonal") d_measured = Ok v)
     <-> (List.length d_measured <= 5)%nat)
  /\ ((exists v, phase_information (PyStr "cubic") d_measured = Ok v)
     <-> (List.length d_measured <= 5)%nat)
  /\ ((6 <= List.length d_measured)%nat ->
      phase_information (PyStr "hexagonal") d_measured = Raise IndexError
      /\ phase_information (PyStr "cubic") d_measured = Raise IndexError).
Proof.
  destruct d_measured as [|d0 [|d1 [|d2 [|d3 [|d4 [|d5 ds]]]]]];
    cbn [List.length];
    (split; [|split]);
    try (split; [intros _; lia | intros _; eexists; reflexivity]);
    try (intros Hlen; exfalso; lia);
    try (split; [intros [v Hv]; discriminate Hv | intros Hlen; exfalso; lia]).
  intros _. split; reflexivity.
Qed.

Lemma np_mean_arithmetic_mean (l : list R) :
  l <> [] -> np_mean l = PyFloat (arithmetic_mean l).
Proof.
  intros Hl. destruct l as [|a l]; [contradiction|].
  unfold np_mean, arithmetic_mean, np_sum, Rsum. f_equal.
  cbn [fdiv of_int PyNum_R]. rewrite <- INR_IZR_INZ. f_equal.
  apply (fold_symmetric (A := R)); intros; cbn [fadd PyNum_R]; ring.
Qed.

(** C4. In the hexagonal branch, for at most five measured spacings, the
    lattice parameter is the arithmetic mean of
    [d_i * sqrt ((4/3) * (h_i^2 + k_i^2 + h_i * k_i))] over the first
    entries of the table (1,0), (1,1), (2,0), (2,1), (3,0), as many as
    there are spacings; for two spacings it is the mean of
    [calculate_a_H1 d0 1 0] and [calculate_a_H1 d1 1 1]. *)
Theorem hexagonal_lattice_parameter_is_mean (d_measured : list R) :
  (List.length d_measured <= 5)%nat ->
  let a := map (fun p => fst p * sqrt (4 / 3 * IZR (fst (snd p) ^ 2
                                   + snd (snd p) ^ 2
                                   + fst (snd p) * snd (snd p))))
             (combine d_measured miller_hk) in
  List.length a = List.length d_measured
  /\ (d_measured <> [] ->
      phase_information (PyStr "hexagonal") d_measured
      = Ok (PyStr "hexagonal", PyFloat (arithmetic_mean a)))
  /\ (d_measured = [] ->
      phase_information (PyStr "hexagonal") d_measured
      = Ok (PyStr "hexagonal", PyNaN))
  /\ (forall d0 d1, d_measured = [d0; d1] ->
      phase_information (PyStr "hexagonal") d_measured
      = Ok (PyStr "hexagonal",
            PyFloat ((calculate_a_H1 d0 1 0 + calculate_a_H1 d1 1 1) / 2))).
Proof.
  intros Hlen a.
  assert (Hrun : phase_information (PyStr "hexagonal") d_measured
                 = Ok (PyStr "hexagonal", np_mean a)).
  { subst a.
    destruct d_measured as [|d0 [|d1 [|d2 [|d3 [|d4 [|d5 ds]]]]]];
      cbn [List.length] in Hlen; try lia; reflexivity. }
  assert (Hsize : List.length a = List.length d_measured).
  { subst a. rewrite length_map, length_combine. cbn [miller_hk List.length]. lia. }
  repeat split.
  - exact Hsize.
  - intros Hne. rewrite Hrun, np_mean_arithmetic_mean; [reflexivity|].
    intros Ha. rewrite Ha in Hsize. destruct d_measured; [contradiction|discriminate].
  - intros ->. reflexivity.
  - intros d0 d1 ->. rewrite Hrun. subst a.
    unfold np_mean, np_sum, calculate_a_H1.
    cbn [combine miller_hk map fold_left List.length fst snd Z.of_nat
         Pos.of_succ_nat Pos.succ fadd fmul fdiv fsqrt of_int PyNum_R].
    rewrite Rplus_0_l. reflexivity.
Qed.

Lemma hexagonal_lattice_parameter_is_mean_witness :
  phase_information (PyStr "hexagonal") [5; 3]
  = Ok (PyStr "hexagonal",
        PyFloat ((calculate_a_H1 5 1 0 + calculate_a_H1 3 1 1) / 2)).
Proof.
  assert (Hlen : (List.length [5; 3] <= 5)%nat) by (simpl; lia).
  destruct (hexagonal_lattice_parameter_is_mean [5; 3] Hlen)
    as (_ & _ & _ & Htwo).
  apply Htwo. reflexivity.
Defined.

(** The cubic branch, likewise, over the table (1,0,0), (1,1,1), (2,0,0),
    (2,1,1), (2,2,2): the mean of [d_i * sqrt (h_i^2 + k_i^2 + l_i^2)],
    which is what [calculate_a_V1] returns at these reflections. *)
Lemma cubic_lattice_parameter_is_mean (d_measured : list R) :
  (List.length d_measured <= 5)%nat ->
  d_measured <> [] ->
  phase_information (PyStr "cubic") d_measured
  = Ok (PyStr "cubic",
        PyFloat (arithmetic_mean
                   (map (fun p => fst p
                                  * sqrt (IZR (fst (fst (snd p)) ^ 2
                                               + snd (fst (snd p)) ^ 2
                                               + snd (snd p) ^ 2)))
                      (combine d_measured miller_hkl))))
  /\ (forall p, In p (combine d_measured miller_hkl) ->
      calculate_a_V1 (fst p) (fst (fst (snd p))) (snd (fst (snd p)))
        (snd (snd p))
      = Ok (fst p * sqrt (IZR (fst (fst (snd p)) ^ 2
                               + snd (fst (snd p)) ^ 2
                               + snd (snd p) ^ 2)))).
Proof.
  intros Hlen Hne. split.
  - rewrite <- np_mean_arithmetic_mean.
    + destruct d_measured as [|d0 [|d1 [|d2 [|d3 [|d4 [|d5 ds]]]]]];
        cbn [List.length] in Hlen; try lia; reflexivity.
    + destruct d_measured; [contradiction|discriminate].
  - intros [d [[h k] l]] Hin. apply in_combine_r in Hin.
    cbn [fst snd] in *.
    cbn [miller_hkl In] in Hin.
    repeat (destruct Hin as [Hin|Hin]; [injection Hin as <- <- <-; reflexivity|]).
    contradiction.
Qed.

Lemma cubic_lattice_parameter_is_mean_witness :
  phase_information (PyStr "cubic") [5; 3]
  = Ok (PyStr "cubic",
        PyFloat (arithmetic_mean
                   (map (fun p => fst p
                                  * sqrt (IZR (fst (fst (snd p)) ^ 2
                                               + snd (fst (snd p)) ^ 2
                                               + snd (snd p) ^ 2)))
                      (combine [5; 3] miller_hkl)))).
Proof.
  apply (cubic_lattice_parameter_is_mean [5; 3]);
    [cbn [List.length]; lia|discriminate].
Defined.

(** ** Geometry functions *)

(** C6. From a spacing in nanometers [d > 0]: to Angstrom ([d * 10]), to
    the scattering vector, and back to the spacing gives [d] again. *)
Theorem lattice_plane_of_scattering_vector (d : R) :
  0 < d ->
  calculate_lattice_plane (calculate_scattering_vector (d * 10)) = d.
Proof.
  intros Hd. unfold calculate_lattice_plane, calculate_scattering_vector.
  cbn [fmul fdiv of_int np_pi PyNum_R].
  pose proof PI_neq0. field. split; lra.
Qed.

Lemma lattice_plane_of_scattering_vector_witness :
  calculate_lattice_plane (calculate_scattering_vector (5 * 10)) = 5.
Proof. apply (lattice_plane_of_scattering_vector 5). lra. Defined.

(** [calculate_linear_regression] is the line of slope [m] through
    [(0, b)]. *)
Lemma calculate_linear_regression_line (m x b : R) :
  calculate_linear_regression m 0 b = b
  /\ calculate_linear_regression m x b - calculate_linear_regression m 0 b
     = m * x.
Proof.
  unfold calculate_linear_regression. cbn [fadd fmul PyNum_R].
  split; ring.
Qed.

(** Bounds on [PI] from the series of Machin's formula with 1/3 and 1/7. *)
Lemma PI_10_digits :
  31415926535 / 10000000000 < PI < 31415926536 / 10000000000.
Proof.
  pose proof (PI_2_3_7_ineq 5) as Hs.
  cbn [sum_f_R0 Nat.mul Nat.add] in Hs.
  unfold tg_alt, PI_2_3_7_tg, Ratan_seq in Hs.
  cbn [Nat.mul Nat.add pow] in Hs.
  rewrite ?INR_IZR_INZ in Hs.
  cbn [Z.of_nat Pos.of_succ_nat Pos.succ] in Hs.
  lra.
Qed.

(** C7. The scattering vectors of the literature spacings 52.49824535,
    26.24912267 and 17.49941512 Angstrom are 1.19683720..., 2.39367440...
    and 3.59051160... per nanometer: all the digits shown are right, so
    the values hold to more than six significant figures. *)
Theorem q_cholpal_literature_values :
  exists q0 q1 q2 : R,
    map calculate_scattering_vector d_from_literature = [q0; q1; q2]
    /\ 119683720 / 100000000 < q0 < 119683721 / 100000000
    /\ 239367440 / 100000000 < q1 < 239367441 / 100000000
    /\ 359051160 / 100000000 < q2 < 359051161 / 100000000.
Proof.
  do 3 eexists. split; [reflexivity|].
  unfold calculate_scattering_vector, decimal.
  cbn [fmul fdiv of_int np_pi PyNum_R].
  pose proof PI_10_digits as [Hlo Hhi].
  replace (2 * PI / (5249824535 / 100000000 / 10))
    with (PI * (2000000000 / 5249824535)) by field.
  replace (2 * PI / (2624912267 / 100000000 / 10))
    with (PI * (2000000000 / 2624912267)) by field.
  replace (2 * PI / (1749941512 / 100000000 / 10))
    with (PI * (2000000000 / 1749941512)) by field.
  repeat split; lra.
Qed.

(** ** Calibration *)

Lemma Reqb_true (x y : R) : x = y -> Reqb x y = true.
Proof. intros E. unfold Reqb. destruct (Req_dec_T x y); [reflexivity|contradiction]. Qed.

Lemma Reqb_false (x y : R) : x <> y -> Reqb x y = false.
Proof. intros E. unfold Reqb. destruct (Req_dec_T x y); [contradiction|reflexivity]. Qed.

(** One point leaves the line undetermined, and [np.polyfit] answers with
    a line all the same. *)
Lemma np_polyfit_single_point (x_0 y_0 : R) :
  x_0 <> 0 -> np_polyfit [x_0] [y_0] = Ok (y_0 / (2 * x_0), y_0 / 2).
Proof.
  intros Hx. unfold np_polyfit.
  cbn [List.length Nat.eqb negb INR dot Rsum fold_right].
  rewrite Reqb_true by ring. rewrite Reqb_false by exact Hx.
  do 2 f_equal; field; exact Hx.
Qed.

(** ... and among the lines through the point it is the one of least
    norm in the coordinates numpy solves in, where each column of the
    system is scaled to length one: the slope counts times [x_0]. *)
Lemma np_polyfit_single_point_least_norm (x_0 y_0 m' b' : R) :
  x_0 <> 0 -> m' * x_0 + b' = y_0 ->
  y_0 / (2 * x_0) * x_0 + y_0 / 2 = y_0
  /\ (x_0 * (y_0 / (2 * x_0))) ^ 2 + (y_0 / 2) ^ 2
     <= (x_0 * m') ^ 2 + b' ^ 2.
Proof.
  intros Hx Hline. split; [field; exact Hx|].
  replace (x_0 * (y_0 / (2 * x_0))) with (y_0 / 2) by (field; exact Hx).
  subst y_0. pose proof (pow2_ge_0 (x_0 * m' - b')) as Hsq.
  apply Rminus_le. apply Ropp_le_cancel. rewrite Ropp_0.
  eapply Rle_trans; [|apply Req_le; symmetry];
    [apply (Rmult_le_pos (/ 2) _ ltac:(lra) Hsq)|field].
Qed.

(** The call of [calculate_scattering_vector] on a Python float. *)
Lemma calculate_scattering_vector_call_nonzero (d : R) :
  d <> 0 ->
  calculate_scattering_vector_call d = Ok (calculate_scattering_vector d).
Proof.
  intros Hd. unfold calculate_scattering_vector_call, py_truediv.
  cbn [feqb fmul fdiv of_int np_pi PyNum_R].
  rewrite Reqb_false by lra. cbn [bind].
  rewrite Reqb_false by (intros E; apply Hd; lra). reflexivity.
Qed.

Lemma calculate_scattering_vector_call_zero :
  calculate_scattering_vector_call 0 = Raise ZeroDivisionError.
Proof.
  unfold calculate_scattering_vector_call, py_truediv.
  cbn [feqb fmul fdiv of_int np_pi PyNum_R].
  rewrite Reqb_false by lra. cbn [bind].
  rewrite Reqb_true by lra. reflexivity.
Qed.

Lemma q_cholpal_literature_of_nonzero (d_literature : list R) :
  Forall (fun d => d <> 0) d_literature ->
  q_cholpal_literature_of d_literature
  = Ok (map calculate_scattering_vector d_literature).
Proof.
  unfold q_cholpal_literature_of.
  induction 1 as [|d ds Hd Hds IH]; [reflexivity|].
  cbn [list_comprehension map].
  rewrite (calculate_scattering_vector_call_nonzero d Hd), IH. reflexivity.
Qed.

Lemma q_cholpal_literature_of_zero (d_literature : list R) :
  Exists (fun d => d = 0) d_literature ->
  q_cholpal_literature_of d_literature = Raise ZeroDivisionError.
Proof.
  unfold q_cholpal_literature_of.
  induction d_literature as [|d ds IH]; intros Hex.
  - inversion Hex.
  - cbn [list_comprehension].
    destruct (Req_dec_T d 0) as [->|Hd].
    + rewrite calculate_scattering_vector_call_zero. reflexivity.
    + rewrite (calculate_scattering_vector_call_nonzero d Hd). cbn [bind].
      rewrite IH; [reflexivity|].
      inversion Hex as [? ? H0|? ? Hrest]; subst;
        [contradiction|exact Hrest].
Qed.

Lemma q_cholpal_literature_of_inv (d_literature q : list R) :
  q_cholpal_literature_of d_literature = Ok q ->
  Forall (fun d => d <> 0) d_literature
  /\ q = map calculate_scattering_vector d_literature.
Proof.
  intros Hq.
  assert (Hnz : Forall (fun d => d <> 0) d_literature).
  { apply Forall_forall. intros d Hin Hd.
    rewrite q_cholpal_literature_of_zero in Hq; [discriminate|].
    apply Exists_exists. exists d. split; assumption. }
  split; [exact Hnz|].
  rewrite (q_cholpal_literature_of_nonzero _ Hnz) in Hq.
  injection Hq as <-. reflexivity.
Qed.

(** C3, as the claim states it, fails: with the single calibration point
    (1, 10 Angstrom) the fit returns the line (PI, PI) and raises
    nothing. *)
Lemma calibration_fit_single_point_counterexample :
  calibration_fit [1] [10] = Ok (PI, PI)
  /\ ~ (forall standard_peaks d_literature : list R,
          (List.length standard_peaks < 2)%nat ->
          exists e, calibration_fit standard_peaks d_literature = Raise e).
Proof.
  assert (Hrun : calibration_fit [1] [10] = Ok (PI, PI)).
  { unfold calibration_fit.
    rewrite q_cholpal_literature_of_nonzero by (repeat constructor; lra).
    cbn [map bind].
    rewrite np_polyfit_single_point by lra.
    unfold calculate_scattering_vector. cbn [fmul fdiv of_int np_pi PyNum_R].
    do 2 f_equal; field. }
  split; [exact Hrun|].
  intros Hall. destruct (Hall [1] [10]) as [e He]; [simpl; lia|].
  rewrite Hrun in He. discriminate He.
Qed.

(** C3, amended. A literature spacing of zero makes the cell of the
    literature scattering vectors raise [ZeroDivisionError], before any
    fit.  With non-zero spacings the calibration fit raises [TypeError]
    when there is no calibration point and when the peak centers and the
    reference spacings differ in number; with exactly one point (of
    non-zero peak center) it raises nothing and returns the line through
    that point whose intercept is half the target scattering vector. *)
Theorem calibration_fit_failures (standard_peaks d_literature : list R) :
  (Exists (fun d => d = 0) d_literature ->
   calibration_fit standard_peaks d_literature = Raise ZeroDivisionError)
  /\ (Forall (fun d => d <> 0) d_literature ->
      standard_peaks = [] ->
      calibration_fit standard_peaks d_literature = Raise TypeError)
  /\ (Forall (fun d => d <> 0) d_literature ->
      List.length standard_peaks <> List.length d_literature ->
      calibration_fit standard_peaks d_literature = Raise TypeError)
  /\ (forall p d, standard_peaks = [p] -> d_literature = [d] ->
      p <> 0 -> d <> 0 ->
      calibration_fit standard_peaks d_literature
      = Ok (calculate_scattering_vector d / (2 * p),
            calculate_scattering_vector d / 2)
        /\ calculate_scattering_vector d / (2 * p) * p
           + calculate_scattering_vector d / 2
           = calculate_scattering_vector d).
Proof.
  unfold calibration_fit. repeat split.
  - intros Hzero. rewrite q_cholpal_literature_of_zero by exact Hzero.
    reflexivity.
  - intros Hnz ->. rewrite q_cholpal_literature_of_nonzero by exact Hnz.
    reflexivity.
  - intros Hnz Hlen.
    rewrite q_cholpal_literature_of_nonzero by exact Hnz. cbn [bind].
    unfold np_polyfit.
    destruct standard_peaks as [|p ps]; [reflexivity|].
    rewrite length_map.
    destruct (Nat.eqb_spec (List.length (p :: ps)) (List.length d_literature))
      as [E|E]; [contradiction|reflexivity].
  - subst. rewrite q_cholpal_literature_of_nonzero
      by (repeat constructor; assumption).
    cbn [map bind]. apply np_polyfit_single_point. assumption.
  - field. subst. assumption.
Qed.

(** ** Cubic space-group fit *)

Section ExactLine.

Variables m b : R.

Let line (a : R) : R := m * a + b.

Lemma Rsum_line (x : list R) :
  Rsum (map line x) = m * Rsum x + b * INR (List.length x).
Proof.
  induction x as [|a x IH]; [simpl; ring|].
  change (Rsum (map line (a :: x))) with (line a + Rsum (map line x)).
  change (Rsum (a :: x)) with (a + Rsum x).
  change (List.length (a :: x)) with (S (List.length x)).
  rewrite IH, S_INR. unfold line. ring.
Qed.

Lemma dot_line (x : list R) :
  dot x (map line x) = m * dot x x + b * Rsum x.
Proof.
  induction x as [|a x IH]; [simpl; ring|].
  change (dot (a :: x) (map line (a :: x)))
    with (a * line a + dot x (map line x)).
  change (dot (a :: x) (a :: x)) with (a * a + dot x x).
  change (Rsum (a :: x)) with (a + Rsum x).
  rewrite IH. unfold line. ring.
Qed.

Lemma np_poly1d_line (x : list R) : np_poly1d (m, b) x = map line x.
Proof.
  unfold np_poly1d, poly1d_coeffs, line. cbn [fst snd feqb of_int PyNum_R].
  apply map_ext. intros a. unfold Reqb.
  destruct (Req_dec_T m 0) as [Em|Em]; [destruct (Req_dec_T b 0) as [Eb|Eb]|];
    unfold polyval; cbn [fold_left fadd fmul of_int PyNum_R];
    try rewrite Em; try rewrite Eb; ring.
Qed.

End ExactLine.

Lemma np_sum_Rsum (l : list R) : np_sum l = Rsum l.
Proof.
  unfold np_sum, Rsum. cbn [of_int PyNum_R].
  apply (fold_symmetric (A := R)); intros; cbn [fadd PyNum_R]; ring.
Qed.

(** The sum of the squared deviations from [c]. *)
Lemma Rsum_sq_dev (x : list R) (c : R) :
  Rsum (map (fun a => (a - c) * (a - c)) x)
  = dot x x - 2 * c * Rsum x + INR (List.length x) * c * c.
Proof.
  induction x as [|a x IH]; [simpl; ring|].
  cbn [map]. change (Rsum (?u :: ?l)) with (u + Rsum l).
  change (dot (a :: x) (a :: x)) with (a * a + dot x x).
  change (List.length (a :: x)) with (S (List.length x)).
  rewrite IH, S_INR. ring.
Qed.

Lemma Rsum_sq_nonneg (f : R -> R) (x : list R) :
  0 <= Rsum (map (fun a => f a * f a) x).
Proof.
  induction x as [|a x IH]; [simpl; lra|].
  cbn [map]. change (Rsum (?u :: ?l)) with (u + Rsum l).
  pose proof (Rle_0_sqr (f a)) as Hsq. unfold Rsqr in Hsq. lra.
Qed.

Lemma Rsum_sq_zero (f : R -> R) (x : list R) :
  Rsum (map (fun a => f a * f a) x) = 0 -> forall a, In a x -> f a = 0.
Proof.
  induction x as [|a0 x IH]; intros Hsum a Hin; [contradiction|].
  cbn [map] in Hsum. change (Rsum (?u :: ?l)) with (u + Rsum l) in Hsum.
  pose proof (Rsum_sq_nonneg f x) as Hrest.
  pose proof (Rle_0_sqr (f a0)) as Hsq. unfold Rsqr in Hsq.
  destruct Hin as [<-|Hin].
  - apply Rsqr_0_uniq. unfold Rsqr. lra.
  - apply IH; [lra|exact Hin].
Qed.

(** When the determinant of the normal equations vanishes, every
    abscissa is the mean. *)
Lemma det_zero_constant (x : list R) :
  x <> [] ->
  INR (List.length x) * dot x x - Rsum x * Rsum x = 0 ->
  forall a, In a x -> a = Rsum x / INR (List.length x).
Proof.
  intros Hne Hdet a Hin.
  assert (Hn : 0 < INR (List.length x)).
  { destruct x; [contradiction|]. apply lt_0_INR. simpl. lia. }
  set (c := Rsum x / INR (List.length x)).
  assert (Hdev : Rsum (map (fun a => (a - c) * (a - c)) x) = 0).
  { rewrite Rsum_sq_dev. unfold c.
    replace (dot x x - 2 * (Rsum x / INR (List.length x)) * Rsum x
             + INR (List.length x) * (Rsum x / INR (List.length x))
               * (Rsum x / INR (List.length x)))
      with ((INR (List.length x) * dot x x - Rsum x * Rsum x)
            / INR (List.length x)) by (field; lra).
    rewrite Hdet. field. lra. }
  pose proof (Rsum_sq_zero (fun a => a - c) x Hdev a Hin) as Ea.
  cbn beta in Ea. lra.
Qed.

(** Two distinct abscissas make the normal equations regular. *)
Lemma det_nonzero (x : list R) :
  (exists x_i x_j, In x_i x /\ In x_j x /\ x_i <> x_j) ->
  INR (List.length x) * dot x x - Rsum x * Rsum x <> 0.
Proof.
  intros (x_i & x_j & Hi & Hj & Hne) Hdet.
  assert (Hx : x <> []) by (intros ->; contradiction).
  apply Hne.
  rewrite (det_zero_constant x Hx Hdet x_i Hi).
  rewrite (det_zero_constant x Hx Hdet x_j Hj) at 1.
  reflexivity.
Qed.

(** On points that lie on a line, with two distinct abscissas, the fit
    returns that line. *)
Lemma np_polyfit_exact_line (x : list R) (m b : R) :
  (exists x_i x_j, In x_i x /\ In x_j x /\ x_i <> x_j) ->
  np_polyfit x (map (fun a => m * a + b) x) = Ok (m, b).
Proof.
  intros Hdist. pose proof (det_nonzero x Hdist) as Hdet.
  unfold np_polyfit. destruct x as [|x_0 x'] eqn:Ex.
  { destruct Hdist as (? & ? & [] & _). }
  rewrite <- Ex in *. rewrite length_map, Nat.eqb_refl. cbn [negb].
  rewrite (Reqb_false _ _ Hdet), Rsum_line, dot_line.
  assert (Hn : INR (List.length x) <> 0).
  { rewrite Ex. apply not_0_INR. discriminate. }
  set (n := INR (List.length x)) in *.
  set (Sx := Rsum x) in *. set (Sxx := dot x x) in *.
  replace ((n * (m * Sxx + b * Sx) - Sx * (m * Sx + b * n))
           / (n * Sxx - Sx * Sx)) with m by (field; exact Hdet).
  do 2 f_equal. field. exact Hn.
Qed.

Lemma Rsum_zero_residuals (y : list R) :
  Rsum (map (fun p => (fst p - snd p) * (fst p - snd p)) (combine y y)) = 0.
Proof.
  induction y as [|a y IH]; [reflexivity|].
  cbn [combine map fst snd]. change (Rsum (?u :: ?l)) with (u + Rsum l).
  rewrite IH. ring.
Qed.

Lemma all_finite (y : list R) : forallb is_finite y = true.
Proof.
  apply forallb_forall. intros a _. unfold is_finite.
  cbn [feqb fsub of_int PyNum_R]. apply Reqb_true. ring.
Qed.

(** A prediction equal to the observation scores 1.0. *)
Lemma r2_score_perfect (y : list R) :
  (2 <= List.length y)%nat -> r2_score y y = Ok (PyFloat 1).
Proof.
  intros Hlen. unfold r2_score. rewrite Nat.eqb_refl, !all_finite.
  cbn [negb andb].
  destruct y as [|a [|a' y]]; cbn [List.length] in Hlen; try lia.
  rewrite !np_sum_Rsum. cbn [feqb fsub fmul of_int PyNum_R].
  rewrite Rsum_zero_residuals, Reqb_true by reflexivity. reflexivity.
Qed.

Lemma two_distinct_length (x : list R) :
  (exists x_i x_j, In x_i x /\ In x_j x /\ x_i <> x_j) ->
  (2 <= List.length x)%nat.
Proof.
  intros (x_i & x_j & Hi & Hj & Hne).
  destruct x as [|a [|a' x]]; cbn [List.length]; try lia.
  - contradiction.
  - destruct Hi as [<-|[]], Hj as [<-|[]]. contradiction.
Qed.




(** ** The model of [np.polyfit] is a least-squares fit *)

Lemma sq_residuals_expand (x y : list R) (m b : R) :
  List.length x = List.length y ->
  sq_residuals x y m b
  = dot y y - 2 * m * dot x y - 2 * b * Rsum y
    + m * m * dot x x + 2 * m * b * Rsum x + INR (List.length x) * b * b.
Proof.
  unfold sq_residuals. revert y.
  induction x as [|a x IH]; intros [|c y] Hlen; try discriminate Hlen.
  - simpl. ring.
  - injection Hlen as Hlen. specialize (IH y Hlen).
    cbn [combine map fst snd]. change (Rsum (?u :: ?l)) with (u + Rsum l).
    change (dot (?u :: ?l) (?v :: ?r)) with (u * v + dot l r).
    change (List.length (a :: x)) with (S (List.length x)).
    rewrite IH, S_INR. ring.
Qed.

Lemma sq_line_expand (x : list R) (dm db : R) :
  Rsum (map (fun a => (dm * a + db) * (dm * a + db)) x)
  = dm * dm * dot x x + 2 * dm * db * Rsum x + INR (List.length x) * db * db.
Proof.
  induction x as [|a x IH]; [simpl; ring|].
  cbn [map]. change (Rsum (?u :: ?l)) with (u + Rsum l).
  change (dot (a :: x) (a :: x)) with (a * a + dot x x).
  change (List.length (a :: x)) with (S (List.length x)).
  rewrite IH, S_INR. ring.
Qed.

Lemma constant_sums (x : list R) (c : R) :
  (forall a, In a x -> a = c) ->
  Rsum x = INR (List.length x) * c
  /\ dot x x = INR (List.length x) * c * c
  /\ forall y, List.length x = List.length y -> dot x y = c * Rsum y.
Proof.
  induction x as [|a x IH]; intros Hc.
  - repeat split; try (simpl; ring). intros [|? ?] Hl; [simpl; ring|discriminate].
  - destruct IH as (IH1 & IH2 & IH3); [intros; apply Hc; right; assumption|].
    assert (Ea : a = c) by (apply Hc; left; reflexivity).
    change (Rsum (a :: x)) with (a + Rsum x).
    change (dot (a :: x) (a :: x)) with (a * a + dot x x).
    change (List.length (a :: x)) with (S (List.length x)).
    rewrite S_INR, IH1, IH2, Ea. repeat split; try ring.
    intros [|c' y] Hl; [discriminate|]. injection Hl as Hl.
    change (dot (c :: x) (c' :: y)) with (c * c' + dot x y).
    change (Rsum (c' :: y)) with (c' + Rsum y).
    rewrite (IH3 y Hl). ring.
Qed.


(** Whatever line [np_polyfit] returns satisfies the normal equations. *)
Lemma np_polyfit_normal_equations (x y : list R) (m b : R) :
  np_polyfit x y = Ok (m, b) ->
  List.length x = List.length y
  /\ m * dot x x + b * Rsum x = dot x y
  /\ m * Rsum x + b * INR (List.length x) = Rsum y.
Proof.
  unfold np_polyfit. destruct x as [|x_0 x'] eqn:Ex; [discriminate|].
  rewrite <- Ex.
  destruct (Nat.eqb_spec (List.length x) (List.length y)) as [Hlen|Hlen];
    cbn [negb]; [|discriminate].
  assert (Hne : x <> []) by (rewrite Ex; discriminate).
  assert (Hn : INR (List.length x) <> 0).
  { rewrite Ex. apply not_0_INR. discriminate. }
  unfold Reqb.
  destruct (Req_dec_T (INR (List.length x) * dot x x - Rsum x * Rsum x) 0)
    as [Hdet|Hdet].
  - destruct (Req_dec_T x_0 0) as [Hx0|Hx0]; [discriminate|].
    intros Hok. injection Hok as <- <-.
    pose proof (det_zero_constant x Hne Hdet) as Hconst.
    assert (E0 : x_0 = Rsum x / INR (List.length x)).
    { apply Hconst. rewrite Ex. left. reflexivity. }
    rewrite <- E0 in Hconst.
    destruct (constant_sums x x_0 Hconst) as (S1 & S2 & S3).
    rewrite (S3 y Hlen), S1, S2.
    repeat split; [exact Hlen| |]; field; split; assumption.
  - intros Hok. injection Hok as <- <-.
    repeat split; [exact Hlen| |]; field; split; assumption.
Qed.

(** ... and no other line has a smaller sum of squared residuals. *)
Lemma np_polyfit_least_squares (x y : list R) (m b : R) :
  np_polyfit x y = Ok (m, b) ->
  forall m' b', sq_residuals x y m b <= sq_residuals x y m' b'.
Proof.
  intros Hfit m' b'.
  destruct (np_polyfit_normal_equations x y m b Hfit) as (Hlen & N1 & N2).
  rewrite !sq_residuals_expand by exact Hlen.
  pose proof (Rsum_sq_nonneg (fun a => (m' - m) * a + (b' - b)) x) as Hpos.
  cbn beta in Hpos. rewrite sq_line_expand in Hpos.
  rewrite <- N1, <- N2.
  apply Rminus_le. apply Ropp_le_cancel. rewrite Ropp_0.
  eapply Rle_trans; [exact Hpos|]. apply Req_le. ring.
Qed.

(** * Further properties of the notebook's cells *)

(** ** The classifier and the cells around it, for any number type *)

Section AnyNumbers.

Context {F : Type} `{PyNum F}.

(** The call on a non-empty list is one pass through the loop body at
    index 0, whatever the comparisons answer. *)
Lemma determine_phase_head (x : F) (rest : list F) :
  determine_phase (x :: rest)
  = Ok (PyStr
          (if fabs (x -! of_int 1 /! fsqrt (of_int 3)) <?! decimal 3 100
           then "hexagonal"
           else if fabs (x -! of_int 1 /! fsqrt (of_int 2)) <?! decimal 3 100
           then "cubic"
           else if fabs (x -! of_int 1 /! of_int 2) <?! decimal 3 100
           then "lamellar"
           else "indeterminate")).
Proof.
  unfold determine_phase, for_enumerate, determine_phase_body, index.
  cbn [nth_error H1 V1 La bind].
  repeat match goal with
    | |- context [fltb ?a ?b] => destruct (fltb a b)
    end; reflexivity.
Qed.

(** [determine_phase] raises nothing, also on more ratios than the
    four-entry tables hold: it answers [None] on the empty list and one of
    the four labels on every other list. *)
Theorem determine_phase_answers (d_ratios : list F) :
  (d_ratios = [] /\ determine_phase d_ratios = Ok PyNone)
  \/ (d_ratios <> []
      /\ exists s, determine_phase d_ratios = Ok (PyStr s)
                   /\ In s ["hexagonal"; "cubic"; "lamellar";
                            "indeterminate"]).
Proof.
  destruct d_ratios as [|x rest]; [left; split; reflexivity|].
  right. split; [discriminate|].
  rewrite determine_phase_head.
  repeat match goal with
    | |- context [fltb ?a ?b] => destruct (fltb a b)
    end; eexists; (split; [reflexivity|]); cbn [In]; tauto.
Qed.

(** The list of ratios is one shorter than the list of spacings, and
    building it raises nothing, not even without any spacing. *)
Lemma d_ratio_of_length (d_measured : list F) :
  exists d_ratio, d_ratio_of d_measured = Ok d_ratio
                  /\ List.length d_ratio = pred (List.length d_measured).
Proof.
  destruct d_measured as [|d_0 [|d_1 ds]].
  - exists []. split; reflexivity.
  - exists []. split; reflexivity.
  - eexists. split; [reflexivity|].
    cbn [List.length map pred]. rewrite length_map. reflexivity.
Qed.

Lemma analyse_classify_and_resolve (q_corrected : list F) :
  analyse q_corrected = classify_and_resolve (d_measured_of q_corrected).
Proof. reflexivity. Qed.

(** What the three cells leave for a list of at least two spacings. *)
Lemma classify_and_resolve_two (d_0 d_1 : F) (ds : list F) :
  classify_and_resolve (d_0 :: d_1 :: ds)
  = (phase <- determine_phase
                (map (fun d => calculate_lattice_ratio d d_0) (d_1 :: ds)) ;;
     phase_information phase (d_0 :: d_1 :: ds)).
Proof. reflexivity. Qed.

Ltac split_comparisons :=
  repeat match goal with
    | |- context [fltb ?a ?b] => destruct (fltb a b)
    | H : context [fltb ?a ?b] |- _ => destruct (fltb a b)
    end.

(** From the spacings to [phase_information]: up to five spacings always
    give a result; the only exception the cells can raise is the
    [IndexError] of the Miller lists, and only with six spacings or
    more. *)
Lemma classify_and_resolve_safe (d_measured : list F) :
  ((List.length d_measured <= 5)%nat ->
   exists v, classify_and_resolve d_measured = Ok v)
  /\ (forall e, classify_and_resolve d_measured = Raise e ->
                e = IndexError /\ (6 <= List.length d_measured)%nat).
Proof.
  destruct d_measured as [|d0 [|d1 ds]].
  - split; [intros _; eexists; reflexivity|discriminate].
  - split; [intros _; eexists; reflexivity|discriminate].
  - rewrite classify_and_resolve_two. cbn [map].
    rewrite determine_phase_head. cbn [bind].
    destruct ds as [|d2 [|d3 [|d4 [|d5 ds]]]]; cbn [List.length];
      split_comparisons;
      (split;
       [ intros Hlen; try (exfalso; lia); eexists; reflexivity
       | intros e He;
         first [ discriminate He
               | injection He as <-; split; [reflexivity|lia] ] ]).
Qed.

(** The same from the corrected scattering vectors. *)
Theorem analyse_raises_only_past_five_peaks (q_corrected : list F) :
  ((List.length q_corrected <= 5)%nat ->
   exists v, analyse q_corrected = Ok v)
  /\ (forall e, analyse q_corrected = Raise e ->
                e = IndexError /\ (6 <= List.length q_corrected)%nat).
Proof.
  rewrite analyse_classify_and_resolve.
  pose proof (classify_and_resolve_safe (d_measured_of q_corrected))
    as [Hok Hraise].
  unfold d_measured_of in Hok, Hraise. rewrite length_map in Hok, Hraise.
  split; assumption.
Qed.

(** Whatever [analyse] leaves in [phase_information] is one of the four
    labels; with "indeterminate" goes the string "-", with each of the
    other three a number, never [None] and never [nan]. *)
Theorem analyse_result_shape (q_corrected : list F) (p a : pyval F) :
  analyse q_corrected = Ok (p, a) ->
  (p = PyStr "indeterminate" /\ a = PyStr "-")
  \/ ((p = PyStr "hexagonal" \/ p = PyStr "cubic" \/ p = PyStr "lamellar")
      /\ exists x, a = PyFloat x).
Proof.
  rewrite analyse_classify_and_resolve. unfold d_measured_of.
  destruct q_corrected as [|q0 [|q1 qs]].
  - intros Hrun. injection Hrun as <- <-. left. split; reflexivity.
  - intros Hrun. injection Hrun as <- <-. left. split; reflexivity.
  - cbn [map]. rewrite classify_and_resolve_two. cbn [map].
    rewrite determine_phase_head. cbn [bind].
    destruct qs as [|q2 [|q3 [|q4 [|q5 qs]]]]; cbn [map];
      split_comparisons; intros Hrun; try discriminate Hrun;
      injection Hrun as <- <-;
      solve [ left; split; reflexivity
            | right; split; [tauto|eexists; reflexivity] ].
Qed.

End AnyNumbers.

(** ** The geometry functions composed *)

(** Fed with what [calculate_scattering_vector] returns,
    [calculate_lattice_plane] gives back a tenth of the spacing: the first
    takes Angstrom, the second answers in nanometers. *)
Theorem lattice_plane_is_tenth_of_angstrom (d : R) :
  d <> 0 ->
  calculate_lattice_plane (calculate_scattering_vector d) = d / 10.
Proof.
  intros Hd. unfold calculate_lattice_plane, calculate_scattering_vector.
  cbn [fmul fdiv of_int np_pi PyNum_R].
  pose proof PI_neq0. field. split; assumption.
Qed.

Lemma lattice_plane_is_tenth_of_angstrom_witness :
  calculate_lattice_plane (calculate_scattering_vector 50) = 50 / 10.
Proof. apply (lattice_plane_is_tenth_of_angstrom 50). lra. Defined.

(** [d_reciprocal] is the reciprocal of [calculate_lattice_plane]. *)
Theorem d_reciprocal_inverts_lattice_plane (q : R) :
  q <> 0 ->
  d_reciprocal q = / calculate_lattice_plane q
  /\ d_reciprocal q * calculate_lattice_plane q = 1.
Proof.
  intros Hq. unfold d_reciprocal, calculate_lattice_plane.
  cbn [fmul fdiv of_int np_pi PyNum_R].
  pose proof PI_neq0. split; field; split; assumption.
Qed.

Lemma d_reciprocal_inverts_lattice_plane_witness :
  d_reciprocal 3 = / calculate_lattice_plane 3
  /\ d_reciprocal 3 * calculate_lattice_plane 3 = 1.
Proof. apply (d_reciprocal_inverts_lattice_plane 3). lra. Defined.

Lemma sqrt_miller_pos (h k l : Z) :
  (h, k, l) <> (0, 0, 0)%Z -> 0 < sqrt (IZR (h ^ 2 + k ^ 2 + l ^ 2)).
Proof.
  intros Hne. apply sqrt_lt_R0. apply IZR_lt.
  assert (Hnz : (h <> 0 \/ k <> 0 \/ l <> 0)%Z).
  { destruct (Z.eq_dec h 0) as [->|]; [|tauto].
    destruct (Z.eq_dec k 0) as [->|]; [|tauto].
    destruct (Z.eq_dec l 0) as [->|]; [|tauto].
    contradiction Hne; reflexivity. }
  nia.
Qed.

Lemma np_sqrt_int_in_range {F : Type} `{PyNum F} (n : Z) :
  (- 2 ^ 63 <= n < 2 ^ 64)%Z -> np_sqrt_int n = Ok (fsqrt (of_int n)).
Proof.
  intros [Hlo Hhi]. unfold np_sqrt_int.
  destruct (Z.ltb_spec n (- 2 ^ 63)) as [Hn|_]; [lia|].
  destruct (Z.leb_spec (2 ^ 64) n) as [Hn|_]; [lia|]. reflexivity.
Qed.

Lemma np_sqrt_int_too_large {F : Type} `{PyNum F} (n : Z) :
  (2 ^ 64 <= n)%Z -> np_sqrt_int n = Raise (A := F) TypeError.
Proof.
  intros Hn. unfold np_sqrt_int.
  destruct (Z.leb_spec (2 ^ 64) n) as [_|Hlt]; [|lia].
  rewrite orb_true_r. reflexivity.
Qed.

(** [calculate_a_V1] undoes the spacing formula of a cubic lattice: from
    the spacing [a / sqrt (h^2 + k^2 + l^2)] of a reflection other than
    (0,0,0) it returns [a], as long as [h^2 + k^2 + l^2] is below [2^64];
    from [2^64] on [np.sqrt] is handed a Python int it cannot take and
    the call raises [TypeError], whatever the spacing. *)
Theorem calculate_a_V1_of_ideal_spacing (a : R) (h k l : Z) :
  (h, k, l) <> (0, 0, 0)%Z ->
  ((h ^ 2 + k ^ 2 + l ^ 2 < 2 ^ 64)%Z ->
   calculate_a_V1 (a / sqrt (IZR (h ^ 2 + k ^ 2 + l ^ 2))) h k l = Ok a)
  /\ ((2 ^ 64 <= h ^ 2 + k ^ 2 + l ^ 2)%Z ->
      forall d : R, calculate_a_V1 d h k l = Raise TypeError).
Proof.
  intros Hne. pose proof (sqrt_miller_pos h k l Hne) as Hpos.
  unfold calculate_a_V1. split.
  - intros Hsmall. rewrite np_sqrt_int_in_range by nia.
    cbn [bind fmul fsqrt of_int PyNum_R]. f_equal. field. lra.
  - intros Hbig d. rewrite np_sqrt_int_too_large by exact Hbig.
    reflexivity.
Qed.

Lemma calculate_a_V1_of_ideal_spacing_witness :
  calculate_a_V1 (7 / sqrt (IZR (2 ^ 2 + 1 ^ 2 + 1 ^ 2))) 2 1 1 = Ok 7
  /\ calculate_a_V1 7 (2 ^ 32) 0 0 = Raise TypeError.
Proof.
  destruct (calculate_a_V1_of_ideal_spacing 7 2 1 1 ltac:(discriminate))
    as [Hsmall _].
  destruct (calculate_a_V1_of_ideal_spacing 7 (2 ^ 32) 0 0
              ltac:(discriminate)) as [_ Hbig].
  split; [apply Hsmall; reflexivity|apply Hbig; discriminate].
Defined.

Lemma hexagonal_norm_pos (h k : Z) :
  (h, k) <> (0, 0)%Z -> 0 < sqrt (4 / 3 * IZR (h ^ 2 + k ^ 2 + h * k)).
Proof.
  intros Hne. apply sqrt_lt_R0.
  assert (Hnz : (h <> 0 \/ k <> 0)%Z).
  { destruct (Z.eq_dec h 0) as [->|]; [|tauto].
    destruct (Z.eq_dec k 0) as [->|]; [|tauto].
    contradiction Hne; reflexivity. }
  assert (Hpos : (0 < h ^ 2 + k ^ 2 + h * k)%Z) by nia.
  apply IZR_lt in Hpos. lra.
Qed.

(** [calculate_a_H1] undoes the spacing formula of a hexagonal lattice,
    for every reflection other than (0,0). *)
Theorem calculate_a_H1_of_ideal_spacing (a : R) (h k : Z) :
  (h, k) <> (0, 0)%Z ->
  calculate_a_H1 (a / sqrt (4 / 3 * IZR (h ^ 2 + k ^ 2 + h * k))) h k = a.
Proof.
  intros Hne. pose proof (hexagonal_norm_pos h k Hne) as Hpos.
  unfold calculate_a_H1. cbn [fmul fdiv fsqrt of_int PyNum_R].
  field. lra.
Qed.

Lemma calculate_a_H1_of_ideal_spacing_witness :
  calculate_a_H1 (7 / sqrt (4 / 3 * IZR (2 ^ 2 + 1 ^ 2 + 2 * 1))) 2 1 = 7.
Proof.
  apply (calculate_a_H1_of_ideal_spacing 7 2 1). discriminate.
Defined.

(** ** Ratios and classification from the scattering vectors *)

Lemma d_ratio_of_inverse_ratios (q_0 : R) (qs : list R) :
  q_0 <> 0 -> Forall (fun q => q <> 0) qs ->
  d_ratio_of (d_measured_of (q_0 :: qs)) = Ok (map (fun q => q_0 / q) qs).
Proof.
  intros Hq0 Hqs.
  assert (Hone : forall q, q <> 0 ->
            calculate_lattice_ratio (calculate_lattice_plane q)
              (calculate_lattice_plane q_0) = q_0 / q).
  { intros q Hq. unfold calculate_lattice_ratio, calculate_lattice_plane.
    cbn [fmul fdiv of_int np_pi PyNum_R].
    pose proof PI_neq0. field. repeat split; assumption. }
  unfold d_measured_of, d_ratio_of.
  destruct qs as [|q_1 qs']; [reflexivity|].
  cbn [map tl index nth_error bind]. f_equal.
  inversion Hqs as [|? ? Hq1 Hqs']; subst.
  rewrite (Hone q_1 Hq1). f_equal.
  rewrite map_map. apply map_ext_in. intros q Hin.
  rewrite Forall_forall in Hqs'. apply Hone, Hqs', Hin.
Qed.

(** The spacing ratios are the inverse ratios of the scattering vectors:
    the ratio for peak [i] is [q_0 / q_i], whatever the calibration of
    the vectors. *)
Theorem d_ratio_of_scattering_vectors (q_0 : R) (qs : list R) :
  q_0 <> 0 -> Forall (fun q => q <> 0) qs ->
  d_ratio_of (d_measured_of (q_0 :: qs)) = Ok (map (fun q => q_0 / q) qs).
Proof. exact (d_ratio_of_inverse_ratios q_0 qs). Qed.

Lemma d_ratio_of_scattering_vectors_witness :
  d_ratio_of (d_measured_of [1; 2; 3]) = Ok (map (fun q => 1 / q) [2; 3]).
Proof.
  apply (d_ratio_of_scattering_vectors 1 [2; 3]); [lra|].
  repeat constructor; lra.
Defined.

(** Multiplying every scattering vector by the same non-zero factor
    changes neither the ratios nor the phase. *)
Theorem classification_scale_invariant (c q_0 : R) (qs : list R) :
  c <> 0 -> q_0 <> 0 -> Forall (fun q => q <> 0) qs ->
  d_ratio_of (d_measured_of (map (Rmult c) (q_0 :: qs)))
  = d_ratio_of (d_measured_of (q_0 :: qs))
  /\ classify (d_measured_of (map (Rmult c) (q_0 :: qs)))
     = classify (d_measured_of (q_0 :: qs)).
Proof.
  intros Hc Hq0 Hqs.
  assert (Hratio : d_ratio_of (d_measured_of (map (Rmult c) (q_0 :: qs)))
                   = d_ratio_of (d_measured_of (q_0 :: qs))).
  { assert (Hcq0 : c * q_0 <> 0)
      by (apply Rmult_integral_contrapositive_currified; assumption).
    assert (Hcqs : Forall (fun q => q <> 0) (map (Rmult c) qs)).
    { rewrite Forall_forall in *. intros x Hin.
      apply in_map_iff in Hin as (q & <- & Hin).
      apply Rmult_integral_contrapositive_currified; auto. }
    cbn [map].
    rewrite (d_ratio_of_inverse_ratios (c * q_0) _ Hcq0 Hcqs).
    rewrite (d_ratio_of_inverse_ratios q_0 qs Hq0 Hqs).
    f_equal. rewrite map_map. apply map_ext_in. intros q Hin.
    rewrite Forall_forall in Hqs. specialize (Hqs q Hin).
    field. split; assumption. }
  split; [exact Hratio|]. unfold classify. rewrite Hratio. reflexivity.
Qed.

Lemma classification_scale_invariant_witness :
  classify (d_measured_of (map (Rmult 5) [1; 2; 3]))
  = classify (d_measured_of [1; 2; 3]).
Proof.
  apply (classification_scale_invariant 5 1 [2; 3]); try lra.
  repeat constructor; lra.
Defined.

(** The three tolerance windows at index 0 do not meet, so each label is
    decided by its own comparison: the order of the tests plays no part
    for the first ratio. *)
Theorem determine_phase_windows (x : R) (rest : list R) :
  (determine_phase (x :: rest) = Ok (PyStr "hexagonal")
   <-> Rabs (x - 1 / sqrt 3) < 3 / 100)
  /\ (determine_phase (x :: rest) = Ok (PyStr "cubic")
      <-> Rabs (x - 1 / sqrt 2) < 3 / 100)
  /\ (determine_phase (x :: rest) = Ok (PyStr "lamellar")
      <-> Rabs (x - 1 / 2) < 3 / 100)
  /\ (determine_phase (x :: rest) = Ok (PyStr "indeterminate")
      <-> ~ Rabs (x - 1 / sqrt 3) < 3 / 100
          /\ ~ Rabs (x - 1 / sqrt 2) < 3 / 100
          /\ ~ Rabs (x - 1 / 2) < 3 / 100).
Proof.
  pose proof inv_sqrt_3_bounds as [H3lo H3hi].
  pose proof inv_sqrt_2_bounds as [H2lo H2hi].
  assert (Dhc : Rabs (x - 1 / sqrt 3) < 3 / 100 ->
                Rabs (x - 1 / sqrt 2) < 3 / 100 -> False).
  { intros A B. apply Rabs_def2 in A, B. lra. }
  assert (Dhl : Rabs (x - 1 / sqrt 3) < 3 / 100 ->
                Rabs (x - 1 / 2) < 3 / 100 -> False).
  { intros A B. apply Rabs_def2 in A, B. lra. }
  assert (Dcl : Rabs (x - 1 / sqrt 2) < 3 / 100 ->
                Rabs (x - 1 / 2) < 3 / 100 -> False).
  { intros A B. apply Rabs_def2 in A, B. lra. }
  rewrite determine_phase_cons. unfold Rltb.
  destruct (Rlt_dec (Rabs (x - 1 / sqrt 3)) (3 / 100)) as [Hh|Hh];
    destruct (Rlt_dec (Rabs (x - 1 / sqrt 2)) (3 / 100)) as [Hc|Hc];
    destruct (Rlt_dec (Rabs (x - 1 / 2)) (3 / 100)) as [Hl|Hl];
    repeat split; intros; try discriminate; try reflexivity; tauto.
Qed.

(** ** Ideal lattices through the classifier and the resolver *)

Lemma first_ratio_inv_sqrt_3 (a u : R) :
  0 < a -> 0 < u ->
  calculate_lattice_ratio (a / sqrt (u * 3)) (a / sqrt u) = 1 / sqrt 3.
Proof.
  intros Ha Hu. unfold calculate_lattice_ratio. cbn [fdiv PyNum_R].
  rewrite sqrt_mult by lra.
  pose proof (sqrt_lt_R0 u Hu). pose proof (sqrt_lt_R0 3 ltac:(lra)).
  field. repeat split; lra.
Qed.

Lemma Rltb_zero_tolerance (x : R) : Rltb (Rabs (x - x)) (3 / 100) = true.
Proof.
  apply Rltb_true. rewrite Rminus_diag, Rabs_R0. lra.
Qed.

(** The spacings of an ideal hexagonal lattice of parameter [a], at the
    first [n >= 2] reflections of the hexagonal table, are classified
    hexagonal, and the resolver returns [a]: the table [H1] of the
    classifier and the Miller lists of the hexagonal branch agree. *)
Theorem ideal_hexagonal_lattice_recovered (a : R) (n : nat) :
  0 < a -> (2 <= n)%nat ->
  classify_and_resolve (firstn n (ideal_hexagonal_spacings a))
  = Ok (PyStr "hexagonal", PyFloat a).
Proof.
  intros Ha Hn.
  assert (E1 : forall h k : Z, (h, k) <> (0, 0)%Z ->
             a / sqrt (4 / 3 * IZR (h ^ 2 + k ^ 2 + h * k))
             * sqrt (4 / 3 * IZR (h ^ 2 + k ^ 2 + h * k)) = a).
  { intros h k Hne. pose proof (hexagonal_norm_pos h k Hne). field. lra. }
  assert (Hfirst :
    calculate_lattice_ratio
      (a / sqrt (4 / 3 * IZR (1 ^ 2 + 1 ^ 2 + 1 * 1)))
      (a / sqrt (4 / 3 * IZR (1 ^ 2 + 0 ^ 2 + 1 * 0))) = 1 / sqrt 3).
  { replace (4 / 3 * IZR (1 ^ 2 + 1 ^ 2 + 1 * 1))
      with (4 / 3 * IZR (1 ^ 2 + 0 ^ 2 + 1 * 0) * 3)
      by (cbn [Z.pow Z.pow_pos Pos.iter Z.mul Z.add Pos.mul Pos.add]; lra).
    apply first_ratio_inv_sqrt_3; [exact Ha|].
    cbn [Z.pow Z.pow_pos Pos.iter Z.mul Z.add Pos.mul Pos.add]. lra. }
  destruct n as [|[|[|[|[|n]]]]]; try lia;
    unfold ideal_hexagonal_spacings;
    cbn [miller_hk map firstn fst snd]; rewrite ?firstn_nil;
    rewrite classify_and_resolve_two; cbn [map];
    rewrite determine_phase_cons, Hfirst, Rltb_zero_tolerance;
    cbn [bind]; unfold phase_information;
    cbn [py_eq_str String.eqb Ascii.eqb Bool.eqb hexagonal_loop index
         nth_error bind app];
    unfold np_mean, np_sum, calculate_a_H1;
    cbn [fold_left List.length Z.of_nat Pos.of_succ_nat Pos.succ
         fadd fmul fdiv fsqrt of_int PyNum_R];
    rewrite !E1 by discriminate;
    match goal with
    | |- Ok (_, PyFloat ?e) = _ => replace e with a by field
    end; reflexivity.
Qed.

Lemma ideal_hexagonal_lattice_recovered_witness :
  classify_and_resolve (firstn 3 (ideal_hexagonal_spacings 5))
  = Ok (PyStr "hexagonal", PyFloat 5).
Proof.
  apply (ideal_hexagonal_lattice_recovered 5 3); [lra|lia].
Defined.

(** The spacings of an ideal cubic lattice at the reflections of the cubic
    branch, (1,0,0), (1,1,1), ..., have the first ratio [1 / sqrt 3] and
    are therefore classified hexagonal, not cubic. *)
Theorem ideal_cubic_table_classified_hexagonal (a : R) (n : nat) :
  0 < a -> (2 <= n)%nat ->
  classify (firstn n (ideal_cubic_spacings a)) = Ok (PyStr "hexagonal").
Proof.
  intros Ha Hn.
  assert (Hfirst :
    calculate_lattice_ratio
      (a / sqrt (IZR (1 ^ 2 + 1 ^ 2 + 1 ^ 2)))
      (a / sqrt (IZR (1 ^ 2 + 0 ^ 2 + 0 ^ 2))) = 1 / sqrt 3).
  { replace (IZR (1 ^ 2 + 1 ^ 2 + 1 ^ 2))
      with (IZR (1 ^ 2 + 0 ^ 2 + 0 ^ 2) * 3)
      by (cbn [Z.pow Z.pow_pos Pos.iter Z.mul Z.add Pos.mul Pos.add]; lra).
    apply first_ratio_inv_sqrt_3; [exact Ha|].
    cbn [Z.pow Z.pow_pos Pos.iter Z.mul Z.add Pos.mul Pos.add]. lra. }
  destruct n as [|[|n]]; try lia.
  unfold ideal_cubic_spacings, classify, d_ratio_of.
  cbn [miller_hkl map firstn fst snd tl index nth_error bind].
  rewrite determine_phase_cons, Hfirst, Rltb_zero_tolerance. reflexivity.
Qed.

Lemma ideal_cubic_table_classified_hexagonal_witness :
  classify (firstn 5 (ideal_cubic_spacings 4)) = Ok (PyStr "hexagonal").
Proof.
  apply (ideal_cubic_table_classified_hexagonal 4 5); [lra|lia].
Defined.

(** ** The cubic-phase cell *)

Lemma index_nth {A : Type} (l : list A) (i : nat) (d : A) :
  (i < List.length l)%nat -> index l i = Ok (nth i l d).
Proof.
  intros Hi. unfold index.
  rewrite (nth_error_nth' l d Hi). reflexivity.
Qed.

Lemma index_out_of_range {A : Type} (l : list A) (i : nat) :
  (List.length l <= i)%nat -> index l i = Raise IndexError.
Proof.
  intros Hi. unfold index.
  apply nth_error_None in Hi. rewrite Hi. reflexivity.
Qed.

Section CubicX.

Context {F : Type} `{PyNum F}.

Variables h k l : list Z.

Lemma miller_sum_at_nonneg (j : nat) : (0 <= miller_sum_at h k l j)%Z.
Proof. unfold miller_sum_at. nia. Qed.

Lemma sqrt_miller_loop_in_range (rest : list Z) (i : nat) :
  (i + List.length rest <= List.length h)%nat ->
  (i + List.length rest <= List.length k)%nat ->
  (i + List.length rest <= List.length l)%nat ->
  (forall j, (i <= j < i + List.length rest)%nat ->
             (miller_sum_at h k l j < 2 ^ 64)%Z) ->
  sqrt_miller_loop h k l i rest
  = Ok (map (sqrt_miller_at h k l) (seq i (List.length rest))).
Proof.
  revert i. induction rest as [|r rest IH]; intros i Hh Hk Hl Hsum.
  - reflexivity.
  - cbn [List.length] in Hh, Hk, Hl, Hsum.
    cbn [sqrt_miller_loop List.length seq map].
    rewrite (index_nth h i 0%Z), (index_nth k i 0%Z), (index_nth l i 0%Z)
      by lia.
    cbn [bind]. unfold sqrt_miller.
    fold (miller_sum_at h k l i).
    pose proof (miller_sum_at_nonneg i).
    rewrite np_sqrt_int_in_range by (split; [lia|apply Hsum; lia]).
    cbn [bind]. rewrite IH; try lia; [reflexivity|].
    intros j Hj. apply Hsum. lia.
Qed.

(** The comprehension stops at the first index [j] that fails: with
    [IndexError] when [k] or [l] has no entry there, with [TypeError]
    when the sum of squares there is too large for [np.sqrt]. *)
Lemma sqrt_miller_loop_first_failure (rest : list Z) (i j : nat) (e : exn) :
  (i <= j < i + List.length rest)%nat ->
  (i + List.length rest <= List.length h)%nat ->
  (forall t, (i <= t < j)%nat ->
             (t < List.length k)%nat /\ (t < List.length l)%nat
             /\ (miller_sum_at h k l t < 2 ^ 64)%Z) ->
  (((List.length k <= j)%nat \/ (List.length l <= j)%nat)
   /\ e = IndexError)
  \/ ((j < List.length k)%nat /\ (j < List.length l)%nat
      /\ (2 ^ 64 <= miller_sum_at h k l j)%Z /\ e = TypeError) ->
  sqrt_miller_loop h k l i rest = Raise (A := list F) e.
Proof.
  revert i. induction rest as [|r rest IH]; intros i Hj Hh Hgood Hbad.
  - cbn [List.length] in Hj. lia.
  - cbn [List.length] in Hj, Hh. cbn [sqrt_miller_loop].
    rewrite (index_nth h i 0%Z) by lia. cbn [bind].
    destruct (Nat.eq_dec i j) as [->|Hij].
    + destruct Hbad as [[Hshort ->]|(Hk & Hl & Hbig & ->)].
      * destruct (Nat.lt_ge_cases j (List.length k)) as [Hjk|Hjk].
        -- rewrite (index_nth k j 0%Z Hjk). cbn [bind].
           rewrite (index_out_of_range l j) by lia. reflexivity.
        -- rewrite (index_out_of_range k j Hjk). reflexivity.
      * rewrite (index_nth k j 0%Z Hk), (index_nth l j 0%Z Hl).
        cbn [bind]. unfold sqrt_miller. fold (miller_sum_at h k l j).
        rewrite np_sqrt_int_too_large by exact Hbig. reflexivity.
    + destruct (Hgood i ltac:(lia)) as (Hk & Hl & Hsum).
      rewrite (index_nth k i 0%Z Hk), (index_nth l i 0%Z Hl).
      cbn [bind]. unfold sqrt_miller. fold (miller_sum_at h k l i).
      pose proof (miller_sum_at_nonneg i).
      rewrite np_sqrt_int_in_range by lia. cbn [bind].
      rewrite (IH (S i)); [reflexivity|lia|lia| |exact Hbad].
      intros t Ht. apply Hgood. lia.
Qed.

Lemma sqrt_miller_loop_ok_or_type_error (rest : list Z) (i : nat) :
  (i + List.length rest <= List.length h)%nat ->
  (i + List.length rest <= List.length k)%nat ->
  (i + List.length rest <= List.length l)%nat ->
  sqrt_miller_loop h k l i rest
  = Ok (map (sqrt_miller_at h k l) (seq i (List.length rest)))
  \/ sqrt_miller_loop h k l i rest = Raise (A := list F) TypeError.
Proof.
  revert i. induction rest as [|r rest IH]; intros i Hh Hk Hl.
  - left. reflexivity.
  - cbn [List.length] in Hh, Hk, Hl.
    cbn [sqrt_miller_loop List.length seq map].
    rewrite (index_nth h i 0%Z), (index_nth k i 0%Z), (index_nth l i 0%Z)
      by lia.
    cbn [bind]. unfold sqrt_miller. fold (miller_sum_at h k l i).
    destruct (Z.lt_ge_cases (miller_sum_at h k l i) (2 ^ 64)) as [Hs|Hs].
    + pose proof (miller_sum_at_nonneg i).
      rewrite np_sqrt_int_in_range by lia. cbn [bind].
      destruct (IH (S i)) as [Hok|Hraise]; try lia.
      * left. rewrite Hok. reflexivity.
      * right. rewrite Hraise. reflexivity.
    + right. rewrite np_sqrt_int_too_large by exact Hs. reflexivity.
Qed.

(** The abscissas of the cubic fit follow [h].  With [k] and [l] at least
    as long as [h], and every [h^2 + k^2 + l^2] below [2^64], there is one
    abscissa per entry of [h], and whatever [k] and [l] hold beyond is
    ignored.  When [k] or [l] is shorter than [h] the cell raises
    [IndexError], provided the sums of squares before the missing entry
    are below [2^64].  At the first reflection whose sum of squares
    reaches [2^64] the cell raises [TypeError]. *)
Theorem cubic_x_follows_h :
  ((List.length h <= List.length k)%nat
   /\ (List.length h <= List.length l)%nat
   /\ (forall j, (j < List.length h)%nat ->
                 (miller_sum_at h k l j < 2 ^ 64)%Z) ->
   cubic_x h k l
   = Ok (map (sqrt_miller_at h k l) (seq 0 (List.length h))))
  /\ (((List.length k < List.length h)%nat
       \/ (List.length l < List.length h)%nat)
      /\ (forall j, (j < Nat.min (List.length k) (List.length l))%nat ->
                    (miller_sum_at h k l j < 2 ^ 64)%Z) ->
      cubic_x h k l = Raise (A := list F) IndexError)
  /\ (forall j,
        (j < List.length h)%nat -> (j < List.length k)%nat ->
        (j < List.length l)%nat ->
        (2 ^ 64 <= miller_sum_at h k l j)%Z ->
        (forall t, (t < j)%nat -> (miller_sum_at h k l t < 2 ^ 64)%Z) ->
        cubic_x h k l = Raise (A := list F) TypeError).
Proof.
  unfold cubic_x. repeat split.
  - intros (Hk & Hl & Hsum).
    apply sqrt_miller_loop_in_range; try lia.
    intros j Hj. apply Hsum. lia.
  - intros [Hshort Hsum].
    apply (sqrt_miller_loop_first_failure h 0
             (Nat.min (List.length k) (List.length l))); try lia.
    + intros t Ht. repeat split; try lia. apply Hsum. lia.
    + left. split; [lia|reflexivity].
  - intros j Hh Hk Hl Hbig Hsum.
    apply (sqrt_miller_loop_first_failure h 0 j); try lia.
    + intros t Ht. repeat split; try lia. apply Hsum. lia.
    + right. repeat split; assumption.
Qed.

End CubicX.

Lemma np_polyfit_rejects (x y : list R) :
  x = [] \/ List.length x <> List.length y ->
  np_polyfit x y = Raise TypeError.
Proof.
  intros Hbad. unfold np_polyfit. destruct x as [|x_0 x']; [reflexivity|].
  destruct Hbad as [Hbad|Hbad]; [discriminate|].
  destruct (Nat.eqb_spec (List.length (x_0 :: x')) (List.length y))
    as [E|E]; [contradiction|reflexivity].
Qed.

(** A number of scattering vectors other than the number of entries of
    [h] makes the fit raise [TypeError], and so does an empty [h]. *)
Theorem cubic_fit_unequal_lengths (h k l : list Z)
    (scattering_vector : list R) :
  (List.length h <= List.length k)%nat ->
  (List.length h <= List.length l)%nat ->
  h = [] \/ List.length scattering_vector <> List.length h ->
  cubic_fit h k l scattering_vector = Raise TypeError.
Proof.
  intros Hk Hl Hbad. unfold cubic_fit.
  unfold cubic_x.
  destruct (sqrt_miller_loop_ok_or_type_error (F := R) h k l h 0)
    as [Hok|Hraise]; try lia.
  - rewrite Hok. cbn [bind].
    rewrite np_polyfit_rejects; [reflexivity|].
    unfold cubic_y. rewrite !length_map, length_seq.
    destruct Hbad as [->|Hbad]; [left; reflexivity|right; congruence].
  - rewrite Hraise. reflexivity.
Qed.

Lemma cubic_fit_unequal_lengths_witness :
  cubic_fit [2; 2; 3]%Z [1; 2; 1]%Z [1; 0; 0]%Z [1; 2] = Raise TypeError.
Proof.
  apply (cubic_fit_unequal_lengths [2; 2; 3]%Z [1; 2; 1]%Z [1; 0; 0]%Z
           [1; 2]); cbn [List.length]; lia.
Defined.

(** For the scattering vectors [2 PI x_i / a] of an ideal cubic lattice of
    parameter [a] the fit returns the slope [1 / a], the intercept 0 and a
    coefficient of determination of 1. *)
Theorem cubic_fit_ideal_lattice (h k l : list Z) (x : list R) (a : R) :
  a <> 0 ->
  cubic_x h k l = Ok x ->
  (exists x_i x_j, In x_i x /\ In x_j x /\ x_i <> x_j) ->
  cubic_fit h k l (map (fun x_i => 2 * PI * x_i / a) x)
  = Ok (1 / a, 0, PyFloat 1).
Proof.
  intros Ha Hx Hdist. unfold cubic_fit. rewrite Hx. cbn [bind].
  assert (Hy : cubic_y (map (fun x_i => 2 * PI * x_i / a) x)
               = map (fun x_i => 1 / a * x_i + 0) x).
  { unfold cubic_y. rewrite map_map. apply map_ext. intros x_i.
    unfold d_reciprocal. cbn [fmul fdiv of_int np_pi PyNum_R].
    pose proof PI_neq0. field. split; assumption. }
  rewrite Hy, (np_polyfit_exact_line x (1 / a) 0 Hdist). cbn [bind].
  rewrite np_poly1d_line.
  rewrite r2_score_perfect; [reflexivity|].
  rewrite length_map. apply two_distinct_length. exact Hdist.
Qed.

Lemma cubic_fit_ideal_lattice_witness :
  cubic_fit [1; 2]%Z [0; 0]%Z [0; 0]%Z
    (map (fun x_i => 2 * PI * x_i / 5) [sqrt 1; sqrt 4])
  = Ok (1 / 5, 0, PyFloat 1).
Proof.
  apply (cubic_fit_ideal_lattice [1; 2]%Z [0; 0]%Z [0; 0]%Z
           [sqrt 1; sqrt 4] 5).
  - lra.
  - reflexivity.
  - exists (sqrt 1), (sqrt 4). cbn [In]. repeat split; auto.
    intros E. apply sqrt_inj in E; lra.
Defined.

(** ** The calibration cells *)

Lemma q_corrected_of_exact_line
    (standard_peaks d_literature sample_peaks : list R) (m b : R) :
  Forall (fun d => d <> 0) d_literature ->
  (exists x_i x_j, In x_i standard_peaks /\ In x_j standard_peaks
                   /\ x_i <> x_j) ->
  map calculate_scattering_vector d_literature
  = map (fun x => m * x + b) standard_peaks ->
  q_corrected_of standard_peaks d_literature sample_peaks
  = Ok (map (fun x => m * x + b) sample_peaks).
Proof.
  intros Hnz Hdist Hline. unfold q_corrected_of, calibration_fit.
  rewrite (q_cholpal_literature_of_nonzero _ Hnz). cbn [bind].
  rewrite Hline, (np_polyfit_exact_line standard_peaks m b Hdist).
  reflexivity.
Qed.

(** When the literature spacings are not zero and their scattering
    vectors are a line in the standard's peak centers, the calibration
    finds that line: every sample is corrected with it, and the
    standard's own peaks are mapped onto the literature values. *)
Theorem calibration_of_exact_standard
    (standard_peaks d_literature sample_peaks : list R) (m b : R) :
  Forall (fun d => d <> 0) d_literature ->
  (exists x_i x_j, In x_i standard_peaks /\ In x_j standard_peaks
                   /\ x_i <> x_j) ->
  map calculate_scattering_vector d_literature
  = map (fun x => m * x + b) standard_peaks ->
  q_corrected_of standard_peaks d_literature sample_peaks
  = Ok (map (fun x => m * x + b) sample_peaks)
  /\ q_corrected_of standard_peaks d_literature standard_peaks
     = Ok (map calculate_scattering_vector d_literature).
Proof.
  intros Hnz Hdist Hline. split.
  - apply q_corrected_of_exact_line; assumption.
  - rewrite (q_corrected_of_exact_line _ _ standard_peaks m b
               Hnz Hdist Hline).
    rewrite Hline. reflexivity.
Qed.

(** Two calibration points with distinct peak centers and non-zero
    literature spacings are reproduced exactly; a literature spacing of
    zero raises [ZeroDivisionError] instead. *)
Theorem calibration_two_points (x_0 x_1 d_0 d_1 : R) :
  x_0 <> x_1 ->
  (d_0 <> 0 -> d_1 <> 0 ->
   q_corrected_of [x_0; x_1] [d_0; d_1] [x_0; x_1]
   = Ok [calculate_scattering_vector d_0; calculate_scattering_vector d_1])
  /\ (d_0 = 0 \/ d_1 = 0 ->
      q_corrected_of [x_0; x_1] [d_0; d_1] [x_0; x_1]
      = Raise ZeroDivisionError).
Proof.
  intros Hne. split.
  - intros Hd0 Hd1.
    set (y_0 := calculate_scattering_vector d_0).
    set (y_1 := calculate_scattering_vector d_1).
    set (m := (y_1 - y_0) / (x_1 - x_0)).
    assert (Hline : map calculate_scattering_vector [d_0; d_1]
                    = map (fun x => m * x + (y_0 - m * x_0)) [x_0; x_1]).
    { cbn [map]. fold y_0 y_1. unfold m.
      f_equal; [|f_equal]; field; lra. }
    rewrite (q_corrected_of_exact_line [x_0; x_1] [d_0; d_1] [x_0; x_1]
               m (y_0 - m * x_0));
      [|repeat constructor; assumption
       |exists x_0, x_1; cbn [In]; tauto|exact Hline].
    rewrite <- Hline. reflexivity.
  - intros Hzero. unfold q_corrected_of, calibration_fit.
    rewrite q_cholpal_literature_of_zero; [reflexivity|].
    destruct Hzero as [E|E]; [left; exact E|right; left; exact E].
Qed.

Lemma calibration_two_points_witness :
  q_corrected_of [100; 200] [50; 25] [100; 200]
  = Ok [calculate_scattering_vector 50; calculate_scattering_vector 25]
  /\ q_corrected_of [100; 200] [50; 0] [100; 200]
     = Raise ZeroDivisionError.
Proof.
  destruct (calibration_two_points 100 200 50 25 ltac:(lra)) as [Hok _].
  destruct (calibration_two_points 100 200 50 0 ltac:(lra)) as [_ Hzero].
  split; [apply Hok; lra|apply Hzero; right; reflexivity].
Defined.

Lemma calibration_of_exact_standard_witness :
  q_corrected_of [1; 2] [10; 5] [3]
  = Ok (map (fun x => 2 * PI * x + 0) [3])
  /\ q_corrected_of [1; 2] [10; 5] [1; 2]
     = Ok (map calculate_scattering_vector [10; 5]).
Proof.
  apply (calibration_of_exact_standard [1; 2] [10; 5] [3] (2 * PI) 0).
  - repeat constructor; lra.
  - exists 1, 2. cbn [In]. repeat split; auto. lra.
  - unfold calculate_scattering_vector.
    cbn [map fmul fdiv of_int np_pi PyNum_R].
    f_equal; [|f_equal]; field.
Defined.

(** Whenever the calibration returns a line, no other line has a smaller
    sum of squared deviations from the literature scattering vectors. *)
Theorem calibration_fit_least_squares
    (standard_peaks d_literature : list R) (m b : R) :
  calibration_fit standard_peaks d_literature = Ok (m, b) ->
  forall m' b',
    sq_residuals standard_peaks
      (map calculate_scattering_vector d_literature) m b
    <= sq_residuals standard_peaks
         (map calculate_scattering_vector d_literature) m' b'.
Proof.
  unfold calibration_fit. intros Hfit.
  destruct (q_cholpal_literature_of d_literature) as [q|e] eqn:Hq;
    [|discriminate Hfit].
  apply q_cholpal_literature_of_inv in Hq as [_ ->].
  apply np_polyfit_least_squares. exact Hfit.
Qed.

Lemma calibration_fit_least_squares_witness :
  sq_residuals [1; 2] (map calculate_scattering_vector [10; 5]) (2 * PI) 0
  <= sq_residuals [1; 2] (map calculate_scattering_vector [10; 5]) 6 1.
Proof.
  refine (calibration_fit_least_squares [1; 2] [10; 5] (2 * PI) 0 _ 6 1).
  unfold calibration_fit.
  rewrite q_cholpal_literature_of_nonzero by (repeat constructor; lra).
  cbn [bind].
  replace (map calculate_scattering_vector [10; 5])
    with (map (fun x => 2 * PI * x + 0) [1; 2]).
  - apply np_polyfit_exact_line.
    exists 1, 2. cbn [In]. repeat split; auto. lra.
  - unfold calculate_scattering_vector.
    cbn [map fmul fdiv of_int np_pi PyNum_R].
    f_equal; [|f_equal]; field.
Defined.

(** The cells run on two concrete scattering vectors at binary64. *)
Lemma analyse_result_shape_witness :
  let q_corrected := [float_of_int 2; float_of_int 4] in
  exists p a,
    analyse q_corrected = Ok (p, a)
    /\ ((p = PyStr "indeterminate" /\ a = PyStr "-")
        \/ ((p = PyStr "hexagonal" \/ p = PyStr "cubic"
             \/ p = PyStr "lamellar")
            /\ exists x, a = PyFloat x)).
Proof.
  intros q_corrected.
  assert (Hrun : exists x, analyse q_corrected
                           = Ok (PyStr "lamellar", PyFloat x))
    by (eexists; vm_compute; reflexivity).
  destruct Hrun as [x Hrun].
  exists (PyStr "lamellar"), (PyFloat x). split; [exact Hrun|].
  exact (analyse_result_shape q_corrected _ _ Hrun).
Defined.

(** ** The notebook's numbers at binary64 *)

Section Binary64Runs.

Import PrimFloat.
Local Open Scope float_scope.
Local Set Warnings "-inexact-float".

(** The cell that prints [q_cholpal_literature] shows these three
    doubles. *)
Example q_cholpal_literature_binary64 :
  map calculate_scattering_vector d_from_literature
  = [1.1968372019465192; 2.3936744043489915; 3.590511605155628].
Proof. vm_compute. reflexivity. Qed.

(** The same cell with its divisions as Python floats make them: no
    exception for these spacings, [ZeroDivisionError] for a spacing of
    zero. *)
Example q_cholpal_literature_of_binary64 :
  q_cholpal_literature_of d_from_literature
  = Ok [1.1968372019465192; 2.3936744043489915; 3.590511605155628]
  /\ q_cholpal_literature_of [52.49824535; 0; 17.49941512]
     = Raise ZeroDivisionError.
Proof. vm_compute. split; reflexivity. Qed.

(** The classifier on first ratios 0.5, 1/sqrt 3, 1/sqrt 2 and 0.9, and on
    no ratio at all. *)
Example determine_phase_binary64 :
  determine_phase [0.5; 0.9] = Ok (PyStr "lamellar")
  /\ determine_phase [1 / sqrt 3; 0.9] = Ok (PyStr "hexagonal")
  /\ determine_phase [1 / sqrt 2] = Ok (PyStr "cubic")
  /\ determine_phase [0.9; 0.5] = Ok (PyStr "indeterminate")
  /\ determine_phase ([] : list float) = Ok PyNone.
Proof. vm_compute. repeat split; reflexivity. Qed.

(** From the corrected scattering vectors the notebook printed for its
    sample to the phase and the lattice parameter. *)
Example sample_phase_information_binary64 :
  let q_corrected := [2.564502778278132; 4.437069241860016] in
  let d_measured := d_measured_of q_corrected in
  d_measured = [2.4500598558127771; 1.4160665440834275]
  /\ d_ratio_of d_measured = Ok [0.57797222411681237]
  /\ analyse q_corrected
     = Ok (PyStr "hexagonal", PyFloat 2.8306092613676297).
Proof. vm_compute. repeat split; reflexivity. Qed.

(** Six spacings in the cubic branch run past the Miller lists. *)
Example six_spacings_binary64 :
  phase_information (PyStr "cubic") [6; 5; 4; 3; 2; 1] = Raise IndexError
  /\ phase_information (PyStr "lamellar") [6; 5; 4; 3; 2; 1]
     = Ok (PyStr "lamellar", PyFloat 6).
Proof. vm_compute. split; reflexivity. Qed.

(** At binary64 the round trip from a spacing to the scattering vector
    and back is exact up to rounding: it returns 2.45 for 2.45 and misses
    3.1 by less than 1e-15. *)
Example round_trip_binary64 :
  calculate_lattice_plane (calculate_scattering_vector (2.45 * 10)) = 2.45
  /\ calculate_lattice_plane (calculate_scattering_vector (3.1 * 10)) <> 3.1
  /\ (abs (calculate_lattice_plane (calculate_scattering_vector (3.1 * 10))
           - 3.1) <? 1e-15) = true.
Proof. vm_compute. repeat split; try reflexivity. discriminate. Qed.

End Binary64Runs.
